(** * BudgetPlanner: a shallow embedding of [src/components/BudgetPlanner.tsx]

    The component keeps two pieces of state (the monthly income and an object
    with six expense amounts), derives totals from them on every render, and
    offers two exports.  JavaScript numbers are IEEE-754 binary64 values; they
    are modelled with the standard library's [spec_float] at precision 53 and
    maximal exponent 1024, so that [+], [-], [*], [/] and [<] round exactly
    as they do in the browser.  JavaScript objects are ordered lists of
    (key, value) pairs, strings are lists of bytes. *)

From Stdlib Require Import ZArith NArith List String Ascii Bool Lia.
From Stdlib Require Import SpecFloat DecimalString Permutation QArith.
Import ListNotations.

Open Scope string_scope.
Open Scope Z_scope.

(** ** JavaScript numbers *)

Module JSNumber.

Definition prec : Z := 53.
Definition emax : Z := 1024.

Definition number : Type := spec_float.

(** The number denoted by an integer literal (rounded to nearest even when
    it needs more than 53 bits). *)
Definition num (z : Z) : number := binary_normalize prec emax z 0 false.

Definition add : number -> number -> number := SFadd prec emax.
Definition sub : number -> number -> number := SFsub prec emax.
Definition mul : number -> number -> number := SFmul prec emax.
Definition div : number -> number -> number := SFdiv prec emax.
Definition ltb : number -> number -> bool := SFltb.
Definition leb : number -> number -> bool := SFleb.

(** [Number("m e-k")]: the decimal literal [m / 10^k].  Both operands are
    exactly representable for the literals used below, so the correctly
    rounded quotient is the double nearest to the decimal. *)
Definition dec (m : Z) (k : Z) : number := div (num m) (num (10 ^ k)).

Definition NaN : number := S754_nan.
Definition Infinity : number := S754_infinity false.

Definition isFinite (x : number) : bool :=
  match x with
  | S754_zero _ | S754_finite _ _ _ => true
  | S754_infinity _ | S754_nan => false
  end.

Definition signbit (x : number) : bool :=
  match x with
  | S754_zero s | S754_infinity s | S754_finite s _ _ => s
  | S754_nan => false
  end.

(** Decimal digits of a natural number, ["0"] for zero. *)
Definition digits (n : Z) : string :=
  NilZero.string_of_uint (N.to_uint (Z.to_N n)).

Definition digit (d : Z) : ascii := ascii_of_N (48 + Z.to_N d).

(** The integer nearest to [|x| * k], the larger one on a tie; exact. *)
Definition scaled (k : Z) (x : number) : Z :=
  match x with
  | S754_finite _ m e =>
      if 0 <=? e then Zpos m * 2 ^ e * k
      else (2 * Zpos m * k + 2 ^ (- e)) / (2 * 2 ^ (- e))
  | _ => 0
  end.

(** *** Number::toString for the arguments [toFixed] hands over *)

Definition pow2_52 : positive := Pos.iter xO xH 52.

(** Does the decimal integer [v] read back as the double [m * 2^e]
    ([e >= 0])?  The rounding interval of the double is compared in
    doubled units; its end points belong to it when [m] is even. *)
Definition reads_back (m : positive) (e : Z) (v : Z) : bool :=
  let X2 := 2 * (Zpos m * 2 ^ e) in
  let below := if Pos.eqb m pow2_52 then 2 ^ (e - 1) else 2 ^ e in
  let lo := X2 - below in
  let hi := X2 + 2 ^ e in
  if Z.even (Zpos m) then (lo <=? 2 * v) && (2 * v <=? hi)
  else (lo <? 2 * v) && (2 * v <? hi).

(** Number of decimal digits of a positive integer. *)
Definition ndigits (n : Z) : Z := Z.of_nat (String.length (digits n)).

(** Shortest significand: the least [k] (tried upwards from [k], at most
    [fuel] times) for which some [s * 10^(n-k)] reads back, the [s]
    closest to the value, the even one on a tie. *)
Fixpoint shortest (fuel : nat) (k : Z) (m : positive) (e : Z) : Z * Z :=
  let X := Zpos m * 2 ^ e in
  let n := ndigits X in
  let p := 10 ^ (n - k) in
  let s1 := X / p in
  let s2 := s1 + 1 in
  let ok1 := reads_back m e (s1 * p) in
  let ok2 := reads_back m e (s2 * p) in
  let near1 := X - s1 * p in
  let near2 := s2 * p - X in
  let pick1 := (s1, n) in
  let pick2 := if s2 =? 10 ^ k then (10 ^ (k - 1), n + 1) else (s2, n) in
  match fuel with
  | O => pick1
  | S fuel' =>
      if ok1 && ok2 then
        if near1 <? near2 then pick1
        else if near2 <? near1 then pick2
        else if Z.even s1 then pick1 else pick2
      else if ok1 then pick1
      else if ok2 then pick2
      else shortest fuel' (k + 1) m e
  end.

(** Exponential notation of a finite [x >= 10^21]. *)
Definition NumberToString_exp (x : number) : string :=
  match x with
  | S754_finite _ m e =>
      let '(s, n) := shortest 17 1 m e in
      match digits s with
      | String d0 EmptyString => String d0 "" ++ "e+" ++ digits (n - 1)
      | String d0 rest => String d0 "" ++ "." ++ rest ++ "e+" ++ digits (n - 1)
      | EmptyString => ""
      end
  | _ => ""
  end.

Definition NumberToString_nonfinite (x : number) : string :=
  match x with
  | S754_nan => "NaN"
  | S754_infinity false => "Infinity"
  | S754_infinity true => "-Infinity"
  | _ => ""
  end.

(** *** Number.prototype.toFixed(2) *)

Definition fixed2 (n : Z) : string :=
  digits (n / 100) ++ "." ++
  String (digit ((n mod 100) / 10)) (String (digit (n mod 10)) "").

Definition toFixed2 (x : number) : string :=
  if negb (isFinite x) then NumberToString_nonfinite x
  else
    let s := if ltb x (num 0) then "-" else "" in
    let a := SFabs x in
    if leb (num (10 ^ 21)) a then s ++ NumberToString_exp a
    else s ++ fixed2 (scaled 100 a).

(** *** Number.prototype.toLocaleString()

    Called without arguments it formats with the host's default locale:
    decimal style, at most three fraction digits, grouping as the locale
    has it.  The locale supplies the separators, the sizes of the last
    group and of the groups before it, and the least number of digits that
    must stand before the first separator.  The locales covered write Latin
    digits and an ASCII minus sign. *)

Record Locale : Type :=
  mkLocale { groupSep : string;
             decimalSep : string;
             primaryGroup : nat;
             secondaryGroup : nat;
             minGroupingDigits : nat }.

Definition en_US : Locale := mkLocale "," "." 3 3 1.
Definition de_DE : Locale := mkLocale "." "," 3 3 1.
Definition es_ES : Locale := mkLocale "." "," 3 3 2.
Definition en_IN : Locale := mkLocale "," "." 3 2 1.

(** Insert [sep] between groups of three digits, counted from the right. *)
Fixpoint group3 (sep : string) (s : string) : string :=
  match s with
  | EmptyString => EmptyString
  | String c r =>
      String c (if (0 <? String.length r)%nat && (String.length r mod 3 =? 0)%nat
                then sep ++ group3 sep r else group3 sep r)
  end.

(** Does a separator stand before the last [r] digits? *)
Definition sep_before (l : Locale) (r : nat) : bool :=
  ((0 <? r) && (primaryGroup l <=? r)
   && ((r - primaryGroup l) mod secondaryGroup l =? 0))%nat.

Fixpoint insert_seps (l : Locale) (s : string) : string :=
  match s with
  | EmptyString => EmptyString
  | String c r =>
      String c (if sep_before l (String.length r)
                then groupSep l ++ insert_seps l r else insert_seps l r)
  end.

(** The integer digits with the locale's grouping; numerals too short for
    the locale's minimum are left ungrouped. *)
Definition grouped (l : Locale) (s : string) : string :=
  if (String.length s <? primaryGroup l + minGroupingDigits l)%nat then s
  else insert_seps l s.

(** The fraction digits of [r / 1000] without trailing zeros. *)
Definition fraction3 (r : Z) : string :=
  if r =? 0 then ""
  else if r mod 100 =? 0 then String (digit (r / 100)) ""
  else if r mod 10 =? 0 then String (digit (r / 100)) (String (digit ((r / 10) mod 10)) "")
  else String (digit (r / 100)) (String (digit ((r / 10) mod 10)) (String (digit (r mod 10)) "")).

Definition infinity_sign : string :=
  String (ascii_of_N 226) (String (ascii_of_N 136) (String (ascii_of_N 158) "")).

(** The formatter starts from a decimal numeral of the double: a whole
    number below 2^53 is taken as it is, every other value by its shortest
    decimal that reads back as the same double. *)
Definition wholeOf (m : positive) (e : Z) : option Z :=
  if (Zpos m <? 2 ^ 53) && (e <=? 0) && (Zpos m mod 2 ^ (- e) =? 0)
  then Some (Zpos m / 2 ^ (- e)) else None.

Section ShortestDecimal.
Variables (m : positive) (e : Z).

(** Everything is compared over the common denominator [2^bscale]; a
    quarter of the gap between neighbouring doubles is then a whole number. *)
Definition bscale : Z := Z.max 0 (2 - e).
Definition Xs : Z := Zpos m * 2 ^ (e + bscale).
Definition half_up : Z := 2 ^ (e - 1 + bscale).
Definition half_down : Z :=
  if Pos.eqb m pow2_52 && (-1074 <? e) then 2 ^ (e - 2 + bscale) else half_up.

(** The decimal [c * 10^t], and a binary quantity [v], over the common
    denominator [2^bscale * 10^(max (-t) 0)]. *)
Definition cand (c t : Z) : Z := c * 10 ^ Z.max t 0 * 2 ^ bscale.
Definition at_scale (v t : Z) : Z := v * 10 ^ Z.max (- t) 0.

(** Does [c * 10^t] read back as the double [m * 2^e]? *)
Definition reads_back_dec (c t : Z) : bool :=
  if Z.even (Zpos m)
  then (at_scale (Xs - half_down) t <=? cand c t)
       && (cand c t <=? at_scale (Xs + half_up) t)
  else (at_scale (Xs - half_down) t <? cand c t)
       && (cand c t <? at_scale (Xs + half_up) t).

(** For a value below 1: the number of zeros right after the point. *)
Fixpoint leading (fuel : nat) (j : Z) : Z :=
  match fuel with
  | O => j
  | S f => if 2 ^ bscale <=? Xs * 10 ^ (j + 1) then j else leading f (j + 1)
  end.

(** The [n] with [10^(n-1) <= m * 2^e < 10^n]. *)
Definition decExp : Z :=
  let fl := Xs / 2 ^ bscale in
  if 1 <=? fl then ndigits fl else - leading 400 0.

(** The shortest decimal [(c, t)], standing for [c * 10^t]: the least
    number [k] of digits (tried upwards from [k]) for which a multiple of
    [10^(n-k)] reads back, the nearest one, the even one on a tie. *)
Fixpoint shortestDec (fuel : nat) (k : Z) (n : Z) : Z * Z :=
  let t := n - k in
  let c1 := at_scale Xs t / cand 1 t in
  let c2 := c1 + 1 in
  let ok1 := reads_back_dec c1 t in
  let ok2 := reads_back_dec c2 t in
  let near1 := at_scale Xs t - cand c1 t in
  let near2 := cand c2 t - at_scale Xs t in
  match fuel with
  | O => (c1, t)
  | S fuel' =>
      if ok1 && ok2 then
        if near1 <? near2 then (c1, t)
        else if near2 <? near1 then (c2, t)
        else if Z.even c1 then (c1, t) else (c2, t)
      else if ok1 then (c1, t)
      else if ok2 then (c2, t)
      else shortestDec fuel' (k + 1) n
  end.

Definition toDecimal : Z * Z :=
  match wholeOf m e with
  | Some z => (z, 0)
  | None => shortestDec 17 1 decExp
  end.

End ShortestDecimal.

(** The decimal [c * 10^t] in thousandths, rounded half away from zero. *)
Definition round3 (d : Z * Z) : Z :=
  let '(c, t) := d in
  if -3 <=? t then c * 10 ^ (t + 3)
  else (2 * c + 10 ^ (- t - 3)) / (2 * 10 ^ (- t - 3)).

(** The magnitude of [x] in thousandths, as the formatter rounds it. *)
Definition thousandths (x : number) : Z :=
  match x with
  | S754_finite _ m e => round3 (toDecimal m e)
  | _ => 0
  end.

Definition toLocaleString (l : Locale) (x : number) : string :=
  match x with
  | S754_nan => "NaN"
  | S754_infinity s => (if s then "-" else "") ++ infinity_sign
  | _ =>
      let n := thousandths x in
      let f := fraction3 (n mod 1000) in
      (if signbit x then "-" else "") ++
      grouped l (digits (n / 1000)) ++
      (if String.eqb f "" then "" else decimalSep l ++ f)
  end.


End JSNumber.

Import JSNumber.

(** ** JavaScript strings and objects *)

Module JS.

(** [String.prototype.toUpperCase] on one ASCII character. *)
Definition toUpperCase (c : ascii) : ascii :=
  let n := N_of_ascii c in
  if ((97 <=? n) && (n <=? 122))%N then ascii_of_N (n - 32) else c.

(** [s.charAt(0).toUpperCase() + s.slice(1)] *)
Definition capitalize (s : string) : string :=
  match s with
  | EmptyString => EmptyString
  | String c r => String (toUpperCase c) r
  end.

(** [Array.prototype.join] *)
Fixpoint join (sep : string) (l : list string) : string :=
  match l with
  | [] => ""
  | [x] => x
  | x :: r => x ++ sep ++ join sep r
  end.

(** An object with string keys: its own properties in the order in which
    [Object.entries] lists them (array indices first, in ascending order,
    then the other names in order of creation). *)
Definition object (V : Type) : Type := list (string * V).

Definition entries {V} (o : object V) : list (string * V) := o.
Definition keys {V} (o : object V) : list string := map fst o.
Definition values {V} (o : object V) : list V := map snd o.

Fixpoint get {V} (k : string) (o : object V) : option V :=
  match o with
  | [] => None
  | (k', v) :: r => if String.eqb k k' then Some v else get k r
  end.

Definition has {V} (k : string) (o : object V) : bool :=
  match get k o with Some _ => true | None => false end.

(** Is the property name an array index, that is the canonical decimal
    numeral of an integer from 0 to 2^32 - 2?  Such names are enumerated
    before all others, in ascending numeric order. *)
Definition array_index (k : string) : option N :=
  match NilEmpty.uint_of_string k with
  | Some d =>
      let n := N.of_uint d in
      if String.eqb (digits (Z.of_N n)) k && (n <? 4294967295)%N
      then Some n else None
  | None => None
  end.

(** Assignment that keeps an existing property in its place and puts a new
    one last: what happens to every name that is no array index. *)
Fixpoint assign {V} (k : string) (v : V) (o : object V) : object V :=
  match o with
  | [] => [(k, v)]
  | (k', v') :: r =>
      if String.eqb k k' then (k', v) :: r else (k', v') :: assign k v r
  end.

(** A new array index [n] goes before the first larger index, and before
    every name that is no index. *)
Fixpoint insert_index {V} (n : N) (k : string) (v : V) (o : object V)
  : object V :=
  match o with
  | [] => [(k, v)]
  | (k', v') :: r =>
      match array_index k' with
      | Some n' =>
          if (n <? n')%N then (k, v) :: o else (k', v') :: insert_index n k v r
      | None => (k, v) :: o
      end
  end.

(** Assignment to a property: an existing one keeps its place; a new one
    goes last, unless its name is an array index. *)
Definition set {V} (k : string) (v : V) (o : object V) : object V :=
  match array_index k with
  | Some n => if has k o then assign k v o else insert_index n k v o
  | None => assign k v o
  end.

(** [Array.prototype.reduce] with an initial value. *)
Definition reduce {A B} (f : B -> A -> B) (init : B) (l : list A) : B :=
  fold_left f l init.

(** [Array.prototype.map] with a callback that also takes the index. *)
Definition mapi {A B} (f : A -> nat -> B) (l : list A) : list B :=
  map (fun '(i, a) => f a i) (combine (seq 0 (List.length l)) l).

End JS.

(** ** The part of SheetJS the component calls *)

Module XLSX.

Inductive cell : Type :=
| NumCell (n : number)
| StrCell (s : string)
| Blank.

Record worksheet : Type :=
  mkSheet { header : list string; rows : list (list cell) }.

Definition workbook : Type := list (string * worksheet).

Definition add_key (hdr : list string) (k : string) : list string :=
  if existsb (String.eqb k) hdr then hdr else (hdr ++ [k])%list.

(** [utils.json_to_sheet]: the header collects the keys of the records in
    order of first appearance; every record becomes one row. *)
Definition json_to_sheet (data : list (JS.object cell)) : worksheet :=
  let hdr := fold_left (fun h r => fold_left add_key (JS.keys r) h) data [] in
  mkSheet hdr
    (map (fun r => map (fun k => match JS.get k r with
                                 | Some c => c
                                 | None => Blank
                                 end) hdr) data).

Definition book_new : workbook := [].

Definition book_append_sheet (wb : workbook) (ws : worksheet) (name : string)
  : workbook := (wb ++ [(name, ws)])%list.

End XLSX.

(** ** The component *)

Module BudgetPlanner.

Import JS XLSX.

(** The six property names of the [expenses] state object. *)
Inductive Category : Type :=
| housing | transportation | food | utilities | entertainment | other.

Definition keyName (c : Category) : string :=
  match c with
  | housing => "housing"
  | transportation => "transportation"
  | food => "food"
  | utilities => "utilities"
  | entertainment => "entertainment"
  | other => "other"
  end.

Definition categories : list Category :=
  [housing; transportation; food; utilities; entertainment; other].

Definition expenseKeys : list string := map keyName categories.

Definition Expenses : Type := object number.

(** The object literal [{ housing: h, transportation: t, ... }]. *)
Definition mkExpenses (h t f u e o : number) : Expenses :=
  [("housing", h); ("transportation", t); ("food", f);
   ("utilities", u); ("entertainment", e); ("other", o)].

(** The shape every [expenses] value of the component has. *)
Definition wf (e : Expenses) : Prop := keys e = expenseKeys.

Record State : Type := mkState { income : number; expenses : Expenses }.

Definition initialState : State :=
  mkState (num 5000)
    (mkExpenses (num 1500) (num 400) (num 600) (num 300) (num 200) (num 300)).

(** *** State updates *)

Definition setIncome (v : number) (s : State) : State :=
  mkState v (expenses s).

(** The updater [(prev) => ({ ...prev, [category]: value })].  At run
    time [category] is a string; the declared parameter type admits the
    six keys only. *)
Definition handleExpenseChange (category : string) (value : number)
    (prev : Expenses) : Expenses :=
  set category value prev.

Definition setExpenses (upd : Expenses -> Expenses) (s : State) : State :=
  mkState (income s) (upd (expenses s)).

(** *** Derived values *)

Definition totalExpenses (e : Expenses) : number :=
  reduce (fun sum expense => add sum expense) (num 0) (values e).

Definition savings (s : State) : number :=
  sub (income s) (totalExpenses (expenses s)).

Definition savingsPercentage (s : State) : number :=
  mul (div (savings s) (income s)) (num 100).

Record ChartEntry : Type := mkEntry { name : string; value : number }.

Definition chartData (e : Expenses) : list ChartEntry :=
  map (fun '(name, value) => mkEntry (capitalize name) value) (entries e).

Definition msg_exceed : string :=
  "Your expenses exceed your income. Consider cutting back on non-essential spending.".
Definition msg_less10 : string :=
  "You're saving less than 10% of your income. Financial experts recommend saving at least 20%.".
Definition msg_aim20 : string :=
  "You're saving a good amount, but aim for 20% to build a strong financial foundation.".
Definition msg_great : string :=
  "Great job! You're saving more than 20% of your income, which is excellent for long-term financial health.".

(** The body of [recommendation], as a function of the captured
    [savingsPercentage]. *)
Definition recommendationFor (savingsPercentage : number) : string :=
  if ltb savingsPercentage (num 0) then msg_exceed
  else if ltb savingsPercentage (num 10) then msg_less10
  else if ltb savingsPercentage (num 20) then msg_aim20
  else msg_great.

Definition recommendation (s : State) : string :=
  recommendationFor (savingsPercentage s).

(** *** Spreadsheet export *)

Definition record (category : string) (amount : cell) : object cell :=
  [("Category", StrCell category); ("Amount", amount)].

Definition excelData (s : State) : list (object cell) :=
  ([record "Income" (NumCell (income s))]
   ++ map (fun '(category, amount) => record (capitalize category) (NumCell amount))
          (entries (expenses s))
   ++ [record "Total Expenses" (NumCell (totalExpenses (expenses s)));
       record "Savings" (NumCell (savings s));
       record "Savings Percentage"
              (StrCell (toFixed2 (savingsPercentage s) ++ "%"))])%list.

Definition excelWorkbook (s : State) : workbook :=
  book_append_sheet book_new (json_to_sheet (excelData s)) "Budget Summary".

(** *** Plain-text export *)

Definition nl : string := String (ascii_of_N 10) "".

Definition budgetText (l : Locale) (s : State) : string :=
  nl ++ "BUDGET SUMMARY" ++ nl ++ "==============" ++ nl ++ nl
  ++ "Income: $" ++ toLocaleString l (income s) ++ nl ++ nl
  ++ "EXPENSES:" ++ nl
  ++ join nl (map (fun '(category, amount) =>
                     capitalize category ++ ": $" ++ toLocaleString l amount)
                  (entries (expenses s)))
  ++ nl ++ nl
  ++ "Total Expenses: $" ++ toLocaleString l (totalExpenses (expenses s)) ++ nl
  ++ "Savings: $" ++ toLocaleString l (savings s) ++ nl
  ++ "Savings Percentage: " ++ toFixed2 (savingsPercentage s) ++ "%" ++ nl ++ nl
  ++ "Recommendation: " ++ recommendation s ++ nl.

(** *** Event handlers and their effects

    A handler runs against the values captured at the last render and
    issues commands: state updates, files handed to the browser, toasts. *)

Record Toast : Type := mkToast { title : string; description : string }.

Inductive FileBody : Type :=
| XlsxBody (wb : workbook)
| BlobBody (parts : list string) (mime : string).

Record Anchor : Type := mkAnchor { href : FileBody; download : string }.

(** [RemoveChild] takes away the last child of the body, which is the
    anchor the handler has just appended. *)
Inductive Command : Type :=
| SetIncome (v : number)
| SetExpenses (upd : Expenses -> Expenses)
| WriteFile (wb : workbook) (filename : string)
| AppendChild (a : Anchor)
| Click (a : Anchor)
| RemoveChild (a : Anchor)
| ShowToast (t : Toast).

Record Host : Type :=
  mkHost { saved : list (string * FileBody);
           body : list Anchor;
           toasts : list Toast;
           locale : Locale }.

Record World : Type := mkWorld { component : State; host : Host }.

Definition exec (c : Command) (w : World) : World :=
  let h := host w in
  match c with
  | SetIncome v => mkWorld (setIncome v (component w)) h
  | SetExpenses upd => mkWorld (setExpenses upd (component w)) h
  | WriteFile wb f =>
      mkWorld (component w)
        (mkHost (saved h ++ [(f, XlsxBody wb)])%list (body h) (toasts h) (locale h))
  | AppendChild a =>
      mkWorld (component w)
        (mkHost (saved h) (body h ++ [a])%list (toasts h) (locale h))
  | Click a =>
      mkWorld (component w)
        (mkHost (saved h ++ [(download a, href a)])%list (body h) (toasts h) (locale h))
  | RemoveChild a =>
      mkWorld (component w)
        (mkHost (saved h) (removelast (body h)) (toasts h) (locale h))
  | ShowToast t =>
      mkWorld (component w)
        (mkHost (saved h) (body h) (toasts h ++ [t])%list (locale h))
  end.

Definition run (cs : list Command) (w : World) : World :=
  fold_left (fun w c => exec c w) cs w.

Definition onIncomeChange (v : number) : list Command := [SetIncome v].

Definition onExpenseChange (category : Category) (v : number) : list Command :=
  [SetExpenses (handleExpenseChange (keyName category) v)].

Definition downloadAsExcel (s : State) : list Command :=
  [WriteFile (excelWorkbook s) "my_budget_plan.xlsx";
   ShowToast (mkToast "Budget Downloaded"
                      "Your budget has been saved as an Excel file")].

Definition downloadAsTxt (l : Locale) (s : State) : list Command :=
  let element := mkAnchor (BlobBody [budgetText l s] "text/plain")
                          "my_budget_plan.txt" in
  [AppendChild element; Click element; RemoveChild element;
   ShowToast (mkToast "Budget Downloaded"
                      "Your budget has been saved as a text file")].

(** A click on one of the two export buttons. *)
Definition clickExcel (w : World) : World :=
  run (downloadAsExcel (component w)) w.
Definition clickTxt (w : World) : World :=
  run (downloadAsTxt (locale (host w)) (component w)) w.

(** *** Rendering *)

Definition COLORS : list string :=
  ["#0088FE"; "#00C49F"; "#FFBB28"; "#FF8042"; "#A259FF"; "#4BC0C0"].

(** [COLORS[index % COLORS.length]]; [None] stands for [undefined]. *)
Definition cellFill (index : nat) : option string :=
  nth_error COLORS (index mod List.length COLORS).

Record CellProps : Type := mkCell { key : string; fill : option string }.

(** The [<Cell>] elements of the pie, one per chart entry. *)
Definition cells (data : list ChartEntry) : list CellProps :=
  mapi (fun entry index =>
          mkCell ("cell-" ++ digits (Z.of_nat index)) (cellFill index)) data.


(** The three figures of the summary row, each after a dollar sign. *)
Definition summaryFigures (l : Locale) (s : State) : list string :=
  ["$" ++ toLocaleString l (income s);
   "$" ++ toLocaleString l (totalExpenses (expenses s));
   "$" ++ toLocaleString l (savings s)].

(** *** Sessions

    What the user can do: type into the income field or into one of the six
    expense fields (the fields are generated from the entries of
    [expenses], so their categories are its keys), or press one of the two
    export buttons. *)
Inductive Event : Type :=
| IncomeInput (v : number)
| ExpenseInput (c : Category) (v : number)
| ExcelClick
| TxtClick.

Definition handle (ev : Event) (w : World) : World :=
  match ev with
  | IncomeInput v => run (onIncomeChange v) w
  | ExpenseInput c v => run (onExpenseChange c v) w
  | ExcelClick => clickExcel w
  | TxtClick => clickTxt w
  end.

Definition session (evs : list Event) (w : World) : World :=
  fold_left (fun w ev => handle ev w) evs w.

Definition isExport (ev : Event) : bool :=
  match ev with
  | ExcelClick | TxtClick => true
  | _ => false
  end.

End BudgetPlanner.

Import JS XLSX BudgetPlanner.

(** ** Predicates used in the statements *)

Definition is_digit (c : ascii) : bool :=
  ((48 <=? N_of_ascii c) && (N_of_ascii c <=? 57))%N.

Fixpoint all_digits (s : string) : bool :=
  match s with
  | EmptyString => true
  | String c r => is_digit c && all_digits r
  end.

Fixpoint skip_digits (s : string) : string :=
  match s with
  | EmptyString => s
  | String c r => if is_digit c then skip_digits r else s
  end.

Definition starts_with_digit (s : string) : bool :=
  match s with
  | EmptyString => false
  | String c _ => is_digit c
  end.

(** One or more digits, a point, exactly two digits, then [suffix]. *)
Definition unsigned_two_decimals (suffix s : string) : bool :=
  starts_with_digit s &&
  match skip_digits s with
  | String p (String d1 (String d2 rest)) =>
      Ascii.eqb p "." && is_digit d1 && is_digit d2 && String.eqb rest suffix
  | _ => false
  end.

(** A decimal numeral with exactly two fraction digits, possibly negative,
    followed by [suffix]. *)
Definition two_decimals_then (suffix s : string) : bool :=
  match s with
  | EmptyString => false
  | String c r =>
      if Ascii.eqb c "-" then unsigned_two_decimals suffix r
      else unsigned_two_decimals suffix s
  end.

(** [p * 2^n] *)
Definition shl (p : positive) (n : nat) : positive := Nat.iter n xO p.

(** A shift register holding [m] with no bits shifted out. *)
Definition exact (m : positive) : shr_record := Build_shr_record (Zpos m) false false.

(** The double that holds the integer [p] (of at most 53 bits) exactly. *)
Definition nf (s : bool) (p : positive) : number :=
  S754_finite s (shl p (Z.to_nat (53 - Zpos (digits2_pos p))))
    (Zpos (digits2_pos p) - 53).

(** The sum of a list of integers. *)
Definition sumZ (l : list Z) : Z := fold_right Z.add 0 l.

(** [s] with every occurrence of the character [c] taken out. *)
Fixpoint without (c : ascii) (s : string) : string :=
  match s with
  | EmptyString => EmptyString
  | String a r => if Ascii.eqb a c then without c r else String a (without c r)
  end.

(** The amount of a category in an expenses object, 0 when it is missing. *)
Definition amount (c : Category) (x : Expenses) : number :=
  match get (keyName c) x with Some v => v | None => num 0 end.

(** Negative and not zero: what [x < 0] tests. *)
Definition is_neg (x : number) : bool :=
  match x with
  | S754_infinity true | S754_finite true _ _ => true
  | _ => false
  end.

(** No line break inside. *)
Fixpoint no_nl (s : string) : bool :=
  match s with
  | EmptyString => true
  | String c r => negb (Ascii.eqb c (ascii_of_N 10)) && no_nl r
  end.

(** [s.split("\n")] *)
Fixpoint lines (s : string) : list string :=
  match s with
  | EmptyString => [""]
  | String c r =>
      if Ascii.eqb c (ascii_of_N 10) then "" :: lines r
      else match lines r with
           | x :: xs => String c x :: xs
           | [] => [String c ""]
           end
  end.

(** The lines of the text export, in order. *)
Definition textLines (l : Locale) (s : State) : list string :=
  let head :=
    [""; "BUDGET SUMMARY"; "=============="; "";
     "Income: $" ++ toLocaleString l (income s); ""; "EXPENSES:"] in
  let body :=
    map (fun '(category, amount) =>
           capitalize category ++ ": $" ++ toLocaleString l amount)
        (entries (expenses s)) in
  let foot :=
    [""; "Total Expenses: $" ++ toLocaleString l (totalExpenses (expenses s));
     "Savings: $" ++ toLocaleString l (savings s);
     "Savings Percentage: " ++ toFixed2 (savingsPercentage s) ++ "%"; "";
     "Recommendation: " ++ recommendation s; ""] in
  (head ++ body ++ foot)%list.

Definition Category_eqb (c c' : Category) : bool :=
  String.eqb (keyName c) (keyName c').

(** The value last typed into the income field during [evs], [cur] when
    there was none. *)
Fixpoint lastIncome (evs : list Event) (cur : number) : number :=
  match evs with
  | [] => cur
  | IncomeInput v :: r => lastIncome r v
  | _ :: r => lastIncome r cur
  end.

(** The value last typed into the field of category [c] during [evs]. *)
Fixpoint lastAmount (c : Category) (evs : list Event) (cur : option number)
  : option number :=
  match evs with
  | [] => cur
  | ExpenseInput c' v :: r =>
      if Category_eqb c c' then lastAmount c r (Some v) else lastAmount c r cur
  | _ :: r => lastAmount c r cur
  end.


(** Does a command assign to the component's state? *)
Definition writes_state (c : Command) : bool :=
  match c with
  | SetIncome _ | SetExpenses _ => true
  | _ => false
  end.

Definition chartLabels : list string :=
  ["Housing"; "Transportation"; "Food"; "Utilities"; "Entertainment"; "Other"].

Definition textHeader : string :=
  "BUDGET SUMMARY" ++ nl ++ "==============" ++ nl ++ nl.

(** The file most recently handed to the browser. *)
Definition last_saved (h : Host) : option (string * FileBody) :=
  List.last (map Some (saved h)) None.

(** ** Comparison of numbers *)

Lemma SFcompare_antisym (x y : number) :
  SFcompare y x = option_map CompOpp (SFcompare x y).
Proof.
  destruct x as [sx|sx| |sx mx ex], y as [sy|sy| |sy my ey]; simpl;
    try destruct sx; try destruct sy; try reflexivity;
    rewrite (Z.compare_antisym ex ey); destruct (ex ?= ey); simpl;
    try reflexivity; f_equal;
    change (Pos.compare_cont Eq my mx) with (Pos.compare my mx);
    change (Pos.compare_cont Eq mx my) with (Pos.compare mx my);
    rewrite (Pos.compare_antisym mx my); destruct (mx ?= my)%positive;
    reflexivity.
Qed.

Lemma leb_not_ltb (a x : number) : leb a x = true -> ltb x a = false.
Proof.
  unfold leb, ltb, SFleb, SFltb. rewrite (SFcompare_antisym a x).
  destruct (SFcompare a x) as [[ | | ]|]; simpl; congruence.
Qed.

Lemma ltb_not_leb (a x : number) : ltb x a = true -> leb a x = false.
Proof.
  unfold leb, ltb, SFleb, SFltb. rewrite (SFcompare_antisym x a).
  destruct (SFcompare x a) as [[ | | ]|]; simpl; congruence.
Qed.

Lemma num_0 : num 0 = S754_zero false.
Proof. reflexivity. Qed.

Lemma num_10 : num 10 = S754_finite false 5629499534213120 (-49).
Proof. vm_compute. reflexivity. Qed.

Lemma num_20 : num 20 = S754_finite false 5629499534213120 (-48).
Proof. vm_compute. reflexivity. Qed.

(** Against zero only the sign of a number matters. *)
Lemma ltb_zero (x : number) :
  ltb x (num 0) = match x with
                  | S754_infinity true | S754_finite true _ _ => true
                  | _ => false
                  end.
Proof. rewrite num_0. destruct x as [s|s| |s m e]; try destruct s; reflexivity. Qed.

Lemma leb_pos_finite (m : positive) (e : Z) (x : number) :
  leb (S754_finite false m e) x = true -> ltb x (num 0) = false.
Proof.
  rewrite ltb_zero. unfold leb, SFleb.
  destruct x as [s|s| |s m' e']; try destruct s; cbn [SFcompare];
    congruence.
Qed.

(** A number that is at least ten is not below zero, one that is at least
    twenty is not below ten. *)
Lemma ge10_not_neg (x : number) : leb (num 10) x = true -> ltb x (num 0) = false.
Proof. rewrite num_10. apply leb_pos_finite. Qed.

Lemma ge0_not_neg (x : number) : leb (num 0) x = true -> ltb x (num 0) = false.
Proof. apply leb_not_ltb. Qed.

Lemma ge20_not_lt10 (x : number) : leb (num 20) x = true -> ltb x (num 10) = false.
Proof.
  rewrite num_10, num_20. unfold leb, ltb, SFleb, SFltb.
  destruct x as [s|s| |s m e]; try destruct s; cbn [SFcompare];
    try congruence.
  destruct (Z.compare_spec (-48) e); destruct (Z.compare_spec e (-49));
    try lia; congruence.
Qed.

Lemma ge20_not_neg (x : number) : leb (num 20) x = true -> ltb x (num 0) = false.
Proof. rewrite num_20. apply leb_pos_finite. Qed.

(** ** Whole numbers are added and subtracted exactly *)

Lemma Pos_iter_shl (p d : positive) : Pos.iter xO p d = shl p (Pos.to_nat d).
Proof. unfold shl. apply Pos2Nat.inj_iter. Qed.

Lemma shl_add (p : positive) (n m : nat) : shl (shl p n) m = shl p (n + m).
Proof. unfold shl. rewrite Nat.add_comm. symmetry. apply Nat.iter_add. Qed.

Lemma shl_Z (p : positive) (n : nat) : Zpos (shl p n) = Zpos p * 2 ^ Z.of_nat n.
Proof.
  induction n as [|n IH].
  - simpl. lia.
  - change (shl p (S n)) with (xO (shl p n)).
    rewrite Pos2Z.inj_xO, IH, Nat2Z.inj_succ, Z.pow_succ_r by lia. lia.
Qed.

Lemma digits_shl (p : positive) (n : nat) :
  Zpos (digits2_pos (shl p n)) = Zpos (digits2_pos p) + Z.of_nat n.
Proof.
  induction n as [|n IH].
  - simpl. lia.
  - change (shl p (S n)) with (xO (shl p n)). cbn [digits2_pos].
    rewrite Pos2Z.inj_succ, IH. lia.
Qed.

Lemma iter_pos_nat {A} (f : A -> A) (p : positive) (x : A) :
  SpecFloat.iter_pos f p x = Nat.iter (Pos.to_nat p) f x.
Proof.
  revert x. induction p as [p IH|p IH|]; intros x; cbn [SpecFloat.iter_pos].
  - rewrite !IH, Pos2Nat.inj_xI. 
    rewrite <- Nat.iter_add. replace (Pos.to_nat p + Pos.to_nat p)%nat with (2 * Pos.to_nat p)%nat by lia.
    symmetry. apply Nat.iter_succ_r.
  - rewrite !IH, Pos2Nat.inj_xO, <- Nat.iter_add. f_equal. lia.
  - reflexivity.
Qed.

Lemma iter_shr_1_shl (q : positive) (n j : nat) :
  Nat.iter n shr_1 (exact (shl q (n + j))) = exact (shl q j).
Proof.
  revert j. induction n as [|n IH]; intros j; [reflexivity|].
  cbn [Nat.iter nat_rect]. unfold Nat.iter in IH.
  replace (S n + j)%nat with (n + S j)%nat by lia. rewrite IH. reflexivity.
Qed.

Lemma shr_shl (q : positive) (n j : nat) (e : Z) :
  shr (exact (shl q (n + j))) e (Z.of_nat n) = (exact (shl q j), e + Z.of_nat n).
Proof.
  destruct n as [|n].
  - simpl. now rewrite Z.add_0_r.
  - unfold shr.
    change (Z.of_nat (S n)) with (Zpos (Pos.of_succ_nat n)).
    cbv iota. rewrite iter_pos_nat, SuccNat2Pos.id_succ.
    now rewrite iter_shr_1_shl.
Qed.

Lemma shl_align_spec (m : positive) (e e' : Z) :
  shl_align m e e'
  = if e' <? e then (shl m (Z.to_nat (e - e')), e') else (m, e).
Proof.
  unfold shl_align. destruct (Z.ltb_spec e' e) as [H|H].
  - destruct (e' - e) as [|d|d] eqn:E; try lia.
    rewrite Pos_iter_shl. do 2 f_equal.
    replace (e - e') with (Zpos d) by lia. reflexivity.
  - destruct (e' - e) as [|d|d] eqn:E; try lia; reflexivity.
Qed.

Lemma fexp_small (d : Z) : 0 < d -> fexp prec emax d = d - 53.
Proof. intros H. unfold fexp, emin, prec, emax. lia. Qed.

(** A mantissa of 53 bits with an exponent in range is left as it is. *)
Lemma binary_round_aux_canonical (s : bool) (m : positive) (e : Z) :
  Zpos (digits2_pos m) = 53 -> -53 < e <= 971 ->
  binary_round_aux prec emax s (Zpos m) e loc_Exact = S754_finite s m e.
Proof.
  intros D E. unfold binary_round_aux, shr_fexp.
  cbn [Zdigits2 shr_record_of_loc]. rewrite D, fexp_small by lia.
  replace (53 + e - 53 - e) with 0 by lia. cbn [shr shr_m loc_of_shr_record round_nearest_even Zdigits2 shr_record_of_loc].
  rewrite D, fexp_small by lia.
  replace (53 + e - 53 - e) with 0 by lia. cbn [shr shr_m].
  unfold emax, prec. destruct (Z.leb_spec e (1024 - 53)); [reflexivity|lia].
Qed.

(** The double nearest to [q * 2^k * 2^(-k)], for [q] of at most 53 bits, is
    [q] itself with its mantissa shifted to 53 bits. *)
Lemma binary_round_shl (s : bool) (q : positive) (k : nat) :
  let d := Zpos (digits2_pos q) in
  d <= 53 ->
  binary_round prec emax s (shl q k) (- Z.of_nat k)
  = S754_finite s (shl q (Z.to_nat (53 - d))) (d - 53).
Proof.
  intros d D. unfold binary_round.
  rewrite digits_shl. fold d.
  replace (d + Z.of_nat k + - Z.of_nat k) with d by lia.
  rewrite fexp_small by (unfold d; lia).
  rewrite shl_align_spec.
  destruct (Z.ltb_spec (d - 53) (- Z.of_nat k)) as [H|H].
  - rewrite shl_add.
    replace (k + Z.to_nat (- Z.of_nat k - (d - 53)))%nat with (Z.to_nat (53 - d)) by lia.
    apply binary_round_aux_canonical; [|lia].
    rewrite digits_shl. fold d. lia.
  - unfold binary_round_aux, shr_fexp.
    cbn [Zdigits2 shr_record_of_loc]. rewrite digits_shl. fold d.
    replace (d + Z.of_nat k + - Z.of_nat k) with d by lia.
    rewrite fexp_small by (unfold d; lia).
    set (n := Z.to_nat (d - 53 + Z.of_nat k)).
    set (j := Z.to_nat (53 - d)).
    replace k with (n + j)%nat by lia.
    replace (d - 53 - - Z.of_nat (n + j)) with (Z.of_nat n) by lia.
    change (Build_shr_record (Zpos (shl q (n + j))) false false) with (exact (shl q (n + j))).
    rewrite shr_shl.
    cbn [exact shr_m loc_of_shr_record round_nearest_even Zdigits2 shr_record_of_loc].
    rewrite digits_shl. fold d.
    replace (d + Z.of_nat j + (- Z.of_nat (n + j) + Z.of_nat n)) with d by lia.
    rewrite fexp_small by (unfold d; lia).
    replace (d - 53 - (- Z.of_nat (n + j) + Z.of_nat n)) with 0 by lia.
    cbn [shr shr_m]. 
    replace (- Z.of_nat (n + j) + Z.of_nat n) with (d - 53) by lia.
    unfold emax, prec. destruct (Z.leb_spec (d - 53) (1024 - 53)); [reflexivity|lia].
Qed.

Lemma digits_lower (p : positive) : 2 ^ (Zpos (digits2_pos p) - 1) <= Zpos p.
Proof.
  induction p as [p IH|p IH|]; cbn [digits2_pos]; [| |simpl; lia];
    rewrite Pos2Z.inj_succ;
    replace (Z.succ (Zpos (digits2_pos p)) - 1)
      with (Z.succ (Zpos (digits2_pos p) - 1)) by lia;
    rewrite Z.pow_succ_r by lia; lia.
Qed.

Lemma digits_bound (p : positive) : Zpos p < 2 ^ 53 -> Zpos (digits2_pos p) <= 53.
Proof.
  intros H. destruct (Z.le_gt_cases (Zpos (digits2_pos p)) 53) as [L|G]; [exact L|].
  pose proof (digits_lower p) as B.
  assert (2 ^ 53 <= 2 ^ (Zpos (digits2_pos p) - 1)) by (apply Z.pow_le_mono_r; lia).
  lia.
Qed.

Lemma num_pos (p : positive) : Zpos p < 2 ^ 53 -> num (Zpos p) = nf false p.
Proof.
  intros H. unfold num, binary_normalize.
  apply (binary_round_shl false p 0), digits_bound, H.
Qed.

Lemma num_neg (p : positive) : Zpos p < 2 ^ 53 -> num (Zneg p) = nf true p.
Proof.
  intros H. unfold num, binary_normalize.
  apply (binary_round_shl true p 0), digits_bound, H.
Qed.

(** An integer of at most 53 bits, written with [k] extra binary places,
    normalises to the double of that integer. *)
Lemma binary_normalize_scaled (z : Z) (k : nat) :
  Z.abs z < 2 ^ 53 ->
  binary_normalize prec emax (z * 2 ^ Z.of_nat k) (- Z.of_nat k) false = num z.
Proof.
  intros H. destruct z as [|p|p].
  - reflexivity.
  - rewrite <- shl_Z, num_pos by exact H.
    apply (binary_round_shl false p k), digits_bound, H.
  - replace (Z.neg p * 2 ^ Z.of_nat k) with (Z.neg (shl p k))
      by (rewrite <- Pos2Z.opp_pos, shl_Z; lia).
    rewrite num_neg by exact H.
    apply (binary_round_shl true p k), digits_bound, H.
Qed.

Lemma fst_shl_align (m : positive) (e e' : Z) :
  e' <= e -> fst (shl_align m e e') = shl m (Z.to_nat (e - e')).
Proof.
  intros H. rewrite shl_align_spec. destruct (Z.ltb_spec e' e); [reflexivity|].
  replace (e - e') with 0 by lia. reflexivity.
Qed.

(** Both operands aligned to the smaller exponent [- k]. *)
Lemma aligned (p q : positive) :
  Zpos p < 2 ^ 53 -> Zpos q < 2 ^ 53 ->
  let ep := Zpos (digits2_pos p) - 53 in
  let eq := Zpos (digits2_pos q) - 53 in
  exists k : nat,
  Z.min ep eq = - Z.of_nat k /\
  Zpos (fst (shl_align (shl p (Z.to_nat (53 - Zpos (digits2_pos p)))) ep (Z.min ep eq)))
  = Zpos p * 2 ^ Z.of_nat k /\
  Zpos (fst (shl_align (shl q (Z.to_nat (53 - Zpos (digits2_pos q)))) eq (Z.min ep eq)))
  = Zpos q * 2 ^ Z.of_nat k.
Proof.
  intros Hp Hq ep eq. exists (Z.to_nat (- Z.min ep eq)).
  pose proof (digits_bound p Hp). pose proof (digits_bound q Hq).
  split; [lia|].
  split; rewrite fst_shl_align, shl_add, shl_Z by lia; do 2 f_equal; lia.
Qed.

Lemma add_num_pos (p q : positive) :
  Zpos p + Zpos q < 2 ^ 53 ->
  add (num (Zpos p)) (num (Zpos q)) = num (Zpos p + Zpos q).
Proof.
  intros H. rewrite (num_pos p), (num_pos q) by lia.
  unfold add, nf. cbn [SFadd cond_Zopp].
  destruct (aligned p q) as (k & E & A & B); try lia.
  rewrite A, B, E, <- Z.mul_add_distr_r.
  apply binary_normalize_scaled. lia.
Qed.

Lemma sub_num_pos (p q : positive) :
  Zpos p < 2 ^ 53 -> Zpos q < 2 ^ 53 ->
  sub (num (Zpos p)) (num (Zpos q)) = num (Zpos p - Zpos q).
Proof.
  intros Hp Hq. rewrite (num_pos p), (num_pos q) by lia.
  unfold sub, nf. cbn [SFsub cond_Zopp].
  destruct (aligned p q) as (k & E & A & B); try lia.
  rewrite A, B, E, <- Z.mul_sub_distr_r.
  apply binary_normalize_scaled. lia.
Qed.

(** Whole numbers add and subtract without rounding. *)
Lemma add_num (a b : Z) :
  0 <= a -> 0 <= b -> a + b < 2 ^ 53 -> add (num a) (num b) = num (a + b).
Proof.
  intros Ha Hb H. destruct a as [|p|p]; [|destruct b as [|q|q]|]; try lia.
  - destruct b as [|q|q]; try lia; [reflexivity|].
    change (0 + Zpos q) with (Zpos q). rewrite (num_pos q) by lia. reflexivity.
  - rewrite Z.add_0_r, (num_pos p) by lia. reflexivity.
  - now apply add_num_pos.
Qed.

Lemma sub_num (a b : Z) :
  0 <= a < 2 ^ 53 -> 0 <= b < 2 ^ 53 -> sub (num a) (num b) = num (a - b).
Proof.
  intros Ha Hb. destruct a as [|p|p]; [|destruct b as [|q|q]|]; try lia.
  - destruct b as [|q|q]; try lia; [reflexivity|].
    rewrite (num_pos q) by lia. change (0 - Zpos q) with (Zneg q).
    rewrite num_neg by lia. reflexivity.
  - rewrite Z.sub_0_r, (num_pos p) by lia. reflexivity.
  - apply sub_num_pos; lia.
Qed.

Lemma digits_upper (p : positive) : Zpos p < 2 ^ Zpos (digits2_pos p).
Proof.
  induction p as [p IH|p IH|]; cbn [digits2_pos]; [| |simpl; lia];
    rewrite Pos2Z.inj_succ, Z.pow_succ_r by lia; lia.
Qed.











Lemma sumZ_nonneg (l : list Z) : Forall (fun z => 0 <= z) l -> 0 <= sumZ l.
Proof. induction 1; simpl; lia. Qed.

Lemma sumZ_perm (l l' : list Z) : Permutation l l' -> sumZ l = sumZ l'.
Proof. induction 1; simpl; lia. Qed.

(** Summing whole numbers from left to right never rounds while the sum
    stays below 2^53. *)
Lemma fold_add_num (l : list Z) (acc : Z) :
  0 <= acc -> Forall (fun z => 0 <= z) l -> acc + sumZ l < 2 ^ 53 ->
  fold_left add (map num l) (num acc) = num (acc + sumZ l).
Proof.
  intros A F. revert acc A. induction F as [|z l Hz F IH]; intros acc A B; simpl in *.
  - now rewrite Z.add_0_r.
  - pose proof (sumZ_nonneg l F).
    rewrite add_num by lia. rewrite IH by lia. f_equal. lia.
Qed.

Lemma totalExpenses_fold (x : Expenses) :
  totalExpenses x = fold_left add (values x) (num 0).
Proof. reflexivity. Qed.

(** ** Recommendation tiers *)

Example recommendation_at_10 :
  savingsPercentage (mkState (num 1000) (mkExpenses (num 900) (num 0) (num 0) (num 0) (num 0) (num 0)))
  = num 10.
Proof. vm_compute. reflexivity. Qed.

Example recommendation_at_20 :
  savingsPercentage (mkState (num 1000) (mkExpenses (num 500) (num 300) (num 0) (num 0) (num 0) (num 0)))
  = num 20.
Proof. vm_compute. reflexivity. Qed.

(** C1: with a positive income the message is picked by the first matching
    threshold of the savings percentage: below 0 the "expenses exceed
    income" text, from 0 up to but not including 10 the "less than 10%"
    text, from 10 up to but not including 20 the "aim for 20%" text, from 20
    on the "great job" text; exactly 10 and exactly 20 fall in the upper of
    their two neighbouring tiers. *)
Theorem recommendation_thresholds (s : State) :
  ltb (num 0) (income s) = true ->
  let sp := savingsPercentage s in
  (ltb sp (num 0) = true -> recommendation s = msg_exceed) /\
  (leb (num 0) sp = true -> ltb sp (num 10) = true ->
   recommendation s = msg_less10) /\
  (leb (num 10) sp = true -> ltb sp (num 20) = true ->
   recommendation s = msg_aim20) /\
  (leb (num 20) sp = true -> recommendation s = msg_great) /\
  recommendationFor (num 10) = msg_aim20 /\
  recommendationFor (num 20) = msg_great.
Proof.
  intros _ sp. unfold recommendation, recommendationFor. fold sp.
  repeat split.
  - intros H. now rewrite H.
  - intros H0 H10. now rewrite (ge0_not_neg _ H0), H10.
  - intros H10 H20.
    now rewrite (ge10_not_neg _ H10), (leb_not_ltb _ _ H10), H20.
  - intros H20.
    now rewrite (ge20_not_neg _ H20), (ge20_not_lt10 _ H20), (leb_not_ltb _ _ H20).
Qed.

Lemma recommendation_thresholds_witness :
  ltb (num 0) (income initialState) = true /\
  (leb (num 20) (savingsPercentage initialState) = true ->
   recommendation initialState = msg_great).
Proof.
  split; [reflexivity|].
  exact (proj1 (proj2 (proj2 (proj2
           (recommendation_thresholds initialState eq_refl))))).
Defined.

(** The four messages are pairwise different, so a state gets the text of
    one tier only. *)
Lemma messages_distinct :
  msg_exceed <> msg_less10 /\ msg_exceed <> msg_aim20 /\ msg_exceed <> msg_great /\
  msg_less10 <> msg_aim20 /\ msg_less10 <> msg_great /\ msg_aim20 <> msg_great.
Proof. repeat split; discriminate. Qed.

(** The other two scenarios of the tier table. *)
Example scenario_overspent :
  let s := mkState (num 2000) (mkExpenses (num 2500) (num 0) (num 0) (num 0) (num 0) (num 0)) in
  totalExpenses (expenses s) = num 2500 /\ savings s = num (-500) /\
  savingsPercentage s = num (-25) /\ recommendation s = msg_exceed.
Proof. vm_compute. repeat split. Qed.

Example scenario_small_saving :
  let s := mkState (num 1000) (mkExpenses (num 500) (num 200) (num 100) (num 100) (num 25) (num 25)) in
  savings s = num 50 /\ savingsPercentage s = num 5 /\ recommendation s = msg_less10.
Proof. vm_compute. repeat split. Qed.

(** ** The default state *)

(** C8: with the initial income 5000 and the initial expenses
    (1500, 400, 600, 300, 200, 300) the total is 3300, the savings are 1700,
    the savings percentage is 34 (printed "34.00") and the recommendation
    is the "great job" text. *)
Theorem default_state_values :
  income initialState = num 5000 /\
  expenses initialState
  = mkExpenses (num 1500) (num 400) (num 600) (num 300) (num 200) (num 300) /\
  totalExpenses (expenses initialState) = num 3300 /\
  savings initialState = num 1700 /\
  savingsPercentage initialState = num 34 /\
  toFixed2 (savingsPercentage initialState) = "34.00" /\
  recommendation initialState = msg_great.
Proof. vm_compute. repeat split. Qed.

(** ** Savings *)

Lemma totalExpenses_whole (x : Expenses) (zs : list Z) :
  values x = map num zs -> Forall (fun z => 0 <= z) zs -> sumZ zs < 2 ^ 53 ->
  totalExpenses x = num (sumZ zs).
Proof.
  intros V F B. rewrite totalExpenses_fold, V.
  now rewrite (fold_add_num zs 0) by (lia || exact F).
Qed.

Lemma savings_whole (i : Z) (x : Expenses) (zs : list Z) :
  values x = map num zs -> Forall (fun z => 0 <= z) zs -> sumZ zs < 2 ^ 53 ->
  0 <= i < 2 ^ 53 ->
  savings (mkState (num i) x) = num (i - sumZ zs).
Proof.
  intros V F B I. unfold savings. cbn [income expenses].
  rewrite (totalExpenses_whole x zs V F B).
  pose proof (sumZ_nonneg zs F). apply sub_num; lia.
Qed.




(** ** Objects *)

Section Objects.
Context {V : Type}.
Implicit Types (o : object V) (k : string) (v : V).

Lemma get_assign_same k v o : get k (assign k v o) = Some v.
Proof.
  induction o as [|[k' v'] r IH]; simpl.
  - now rewrite String.eqb_refl.
  - destruct (String.eqb k k') eqn:E; simpl; rewrite E; auto.
Qed.

Lemma get_assign_other k k' v o : k' <> k -> get k' (assign k v o) = get k' o.
Proof.
  intros N. induction o as [|[k0 v0] r IH]; simpl.
  - destruct (String.eqb_spec k' k); congruence.
  - destruct (String.eqb_spec k k0) as [->|]; simpl.
    + destruct (String.eqb_spec k' k0); congruence.
    + now rewrite IH.
Qed.

Lemma keys_assign_in k v o : In k (keys o) -> keys (assign k v o) = keys o.
Proof.
  unfold keys. induction o as [|[k0 v0] r IH]; simpl; [tauto|].
  intros H. destruct (String.eqb_spec k k0) as [->|N]; simpl; [reflexivity|].
  f_equal. apply IH. destruct H; congruence.
Qed.

Lemma assign_fresh k v o :
  ~ In k (keys o) -> assign k v o = (o ++ [(k, v)])%list.
Proof.
  unfold keys. induction o as [|[k0 v0] r IH]; simpl; [reflexivity|].
  intros H. destruct (String.eqb_spec k k0) as [->|N]; [tauto|].
  f_equal. apply IH. tauto.
Qed.

Lemma app_one_neq (l : list (string * V)) x : (l ++ [x])%list <> l.
Proof.
  intros E. apply (f_equal (@List.length _)) in E.
  rewrite length_app in E. simpl in E. lia.
Qed.

Lemma get_insert_same (n : N) k v o :
  has k o = false -> get k (insert_index n k v o) = Some v.
Proof.
  unfold has. induction o as [|[k0 v0] r IH]; simpl.
  - now rewrite String.eqb_refl.
  - destruct (String.eqb k k0) eqn:E; [discriminate|]. intros H.
    destruct (array_index k0) as [n'|]; [destruct (n <? n')%N|]; simpl;
      rewrite ?String.eqb_refl, ?E; auto.
Qed.

Lemma get_insert_other (n : N) k k' v o :
  k' <> k -> get k' (insert_index n k v o) = get k' o.
Proof.
  intros N. assert (E : String.eqb k' k = false)
    by (destruct (String.eqb_spec k' k); congruence).
  induction o as [|[k0 v0] r IH]; simpl.
  - now rewrite E.
  - destruct (array_index k0) as [n'|]; [destruct (n <? n')%N|]; simpl;
      rewrite ?E, ?IH; reflexivity.
Qed.

(** Reading back what was assigned, under any name, ... *)
Lemma get_set_same k v o : get k (set k v o) = Some v.
Proof.
  unfold set. destruct (array_index k) as [n|]; [|apply get_assign_same].
  destruct (has k o) eqn:H; [apply get_assign_same|now apply get_insert_same].
Qed.

(** ... and every other property is left alone. *)
Lemma get_set_other k k' v o : k' <> k -> get k' (set k v o) = get k' o.
Proof.
  intros N. unfold set.
  destruct (array_index k) as [n|]; [|now apply get_assign_other].
  destruct (has k o); [now apply get_assign_other|now apply get_insert_other].
Qed.

Lemma set_not_index k v o : array_index k = None -> set k v o = assign k v o.
Proof. unfold set. now intros ->. Qed.

Lemma keys_set_in k v o :
  array_index k = None -> In k (keys o) -> keys (set k v o) = keys o.
Proof. intros A. rewrite set_not_index by exact A. apply keys_assign_in. Qed.

Lemma set_fresh k v o :
  array_index k = None -> ~ In k (keys o) -> set k v o = (o ++ [(k, v)])%list.
Proof. intros A. rewrite set_not_index by exact A. apply assign_fresh. Qed.
End Objects.

Lemma keyName_inj (c c' : Category) : keyName c = keyName c' -> c = c'.
Proof. destruct c, c'; simpl; intros H; try reflexivity; discriminate H. Qed.

Lemma keyName_in (c : Category) : In (keyName c) expenseKeys.
Proof. destruct c; simpl; tauto. Qed.

Lemma keyName_not_index (c : Category) : array_index (keyName c) = None.
Proof. destruct c; reflexivity. Qed.

Lemma set_keyName {V} (c : Category) (v : V) (o : object V) :
  set (keyName c) v o = assign (keyName c) v o.
Proof. apply set_not_index, keyName_not_index. Qed.

Lemma wf_mkExpenses (h t f u e o : number) : wf (mkExpenses h t f u e o).
Proof. reflexivity. Qed.

Lemma wf_inv (x : Expenses) :
  wf x -> exists h t f u e o, x = mkExpenses h t f u e o.
Proof.
  unfold wf, keys, expenseKeys. simpl. intros H.
  do 6 (destruct x as [|[? ?] x]; [discriminate H|];
        simpl in H; injection H as -> H).
  destruct x; [|discriminate H].
  now do 6 eexists.
Qed.

Lemma get_mkExpenses (h t f u e o : number) (c : Category) :
  get (keyName c) (mkExpenses h t f u e o)
  = Some match c with
         | housing => h | transportation => t | food => f
         | utilities => u | entertainment => e | other => o
         end.
Proof. destruct c; reflexivity. Qed.

(** Two well-formed expense objects with the same six amounts are equal. *)
Lemma wf_ext (x y : Expenses) :
  wf x -> wf y ->
  (forall c, get (keyName c) x = get (keyName c) y) -> x = y.
Proof.
  intros Hx Hy E.
  destruct (wf_inv x Hx) as (h & t & f & u & e & o & ->).
  destruct (wf_inv y Hy) as (h' & t' & f' & u' & e' & o' & ->).
  pose proof (E housing) as E1. pose proof (E transportation) as E2.
  pose proof (E food) as E3. pose proof (E utilities) as E4.
  pose proof (E entertainment) as E5. pose proof (E other) as E6.
  simpl in E1, E2, E3, E4, E5, E6. unfold mkExpenses. congruence.
Qed.

(** Assigning to one of the six keys keeps the shape of the object. *)
Lemma set_key_wf (c : Category) (v : number) (prev : Expenses) :
  wf prev -> wf (set (keyName c) v prev).
Proof.
  intros W. unfold wf. rewrite keys_set_in; [exact W| |].
  - apply keyName_not_index.
  - rewrite W. apply keyName_in.
Qed.

(** ** State updates *)

(** C3: for every expenses object with the six keys, every category and
    every new value, the update replaces exactly the entry of that category,
    leaves the other five as they were and keeps the six keys.  The
    parameter has the type [keyof typeof expenses], so every category is one
    of the six keys: a call with another name is rejected by the type
    checker and the only caller passes keys of the object itself.  Whatever
    string an untyped caller might pass, the six keys are still present
    afterwards, and a name outside the six leaves their entries unchanged. *)
Theorem handleExpenseChange_frame (prev : Expenses) (v : number) :
  wf prev ->
  (forall c : Category,
     let next := handleExpenseChange (keyName c) v prev in
     In (keyName c) expenseKeys /\
     get (keyName c) next = Some v /\
     (forall c', c' <> c -> get (keyName c') next = get (keyName c') prev) /\
     wf next) /\
  (forall (k : string) (c' : Category),
     let next := handleExpenseChange k v prev in
     has (keyName c') next = true /\
     (~ In k expenseKeys -> get (keyName c') next = get (keyName c') prev)).
Proof.
  intros W. unfold handleExpenseChange. split.
  - intros c. cbv zeta. split; [apply keyName_in|].
    split; [apply get_set_same|]. split.
    + intros c' N. apply get_set_other. intros E. apply N, keyName_inj, E.
    + now apply set_key_wf.
  - intros k c'. cbv zeta.
    assert (P : exists a, get (keyName c') prev = Some a).
    { destruct (wf_inv prev W) as (h & t & f & u & e & o & ->).
      rewrite get_mkExpenses. now eexists. }
    destruct P as (a & P). split.
    + unfold has. destruct (String.eqb_spec (keyName c') k) as [<-|N].
      * now rewrite get_set_same.
      * now rewrite get_set_other, P by exact N.
    + intros N. apply get_set_other. intros E. apply N. rewrite <- E.
      apply keyName_in.
Qed.

Lemma handleExpenseChange_frame_witness :
  wf (expenses initialState) /\
  get "food" (handleExpenseChange "food" (num 650) (expenses initialState))
  = Some (num 650).
Proof.
  split; [reflexivity|].
  exact (proj1 (proj2 (proj1 (handleExpenseChange_frame (expenses initialState)
                                (num 650) eq_refl) food))).
Defined.

(** What the assignment does at run time with names the type excludes: a
    new ordinary name is appended after the six keys, a new array index is
    listed before them. *)
Example handleExpenseChange_unknown_key_not_noop :
  ~ In "savings" expenseKeys /\
  handleExpenseChange "savings" (num 1) (expenses initialState)
  <> expenses initialState /\
  keys (handleExpenseChange "savings" (num 1) (expenses initialState))
  = (expenseKeys ++ ["savings"])%list.
Proof.
  split; [|split].
  - simpl. intros H. repeat (destruct H as [H|H]; [discriminate H|]). exact H.
  - intros E. apply (f_equal (@List.length _)) in E. discriminate E.
  - reflexivity.
Qed.

Example handleExpenseChange_index_keys_first :
  keys (handleExpenseChange "7" (num 1)
          (handleExpenseChange "10" (num 2)
             (handleExpenseChange "007" (num 3) (expenses initialState))))
  = ("7" :: "10" :: expenseKeys ++ ["007"])%list.
Proof. reflexivity. Qed.

(** The typed handler of the six input fields keeps the shape of the state. *)
Lemma onExpenseChange_wf (c : Category) (v : number) (w : World) :
  wf (expenses (component w)) ->
  wf (expenses (component (run (onExpenseChange c v) w))).
Proof.
  intros W. simpl. now apply set_key_wf.
Qed.

(** ** Total of the expenses *)

(** C4, as the code has it: the total is the sum of the six amounts taken
    in declaration order, accumulated from 0 with the addition of
    JavaScript numbers.  When the amounts are non-negative whole numbers
    with a sum below 2^53 no addition rounds: the total is the exact integer
    sum, and summing the amounts in any other order gives the same total. *)
Theorem totalExpenses_sum :
  (forall h t f u e o : number,
     totalExpenses (mkExpenses h t f u e o)
     = add (add (add (add (add (add (num 0) h) t) f) u) e) o) /\
  (forall (x : Expenses) (zs : list Z),
     values x = map num zs -> Forall (fun z => 0 <= z) zs ->
     sumZ zs < 2 ^ 53 ->
     totalExpenses x = num (sumZ zs) /\
     forall zs', Permutation zs zs' ->
       reduce (fun sum expense => add sum expense) (num 0) (map num zs')
       = totalExpenses x).
Proof.
  split; [reflexivity|].
  intros x zs V F B.
  assert (T : totalExpenses x = num (sumZ zs)).
  { rewrite totalExpenses_fold, V.
    now rewrite (fold_add_num zs 0) by (lia || exact F). }
  split; [exact T|]. intros zs' P. rewrite T.
  change (fold_left add (map num zs') (num 0) = num (sumZ zs)).
  rewrite (fold_add_num zs' 0); rewrite <- ?(sumZ_perm _ _ P); try lia.
  - reflexivity.
  - now apply (Permutation_Forall P).
Qed.

Lemma totalExpenses_sum_witness :
  values (expenses initialState) = map num [1500; 400; 600; 300; 200; 300] /\
  totalExpenses (expenses initialState) = num 3300.
Proof.
  split; [reflexivity|].
  refine (proj1 (proj2 totalExpenses_sum (expenses initialState)
                   [1500; 400; 600; 300; 200; 300] eq_refl _ _)).
  - repeat constructor; lia.
  - simpl; lia.
Defined.

(** C4 as stated fails: the amounts 0.1, 0.2, 0.3, 0, 0, 0 summed in the
    opposite order give another total (0.6 against 0.6000000000000001). *)
Lemma totalExpenses_order_matters :
  let x := mkExpenses (dec 1 1) (dec 2 1) (dec 3 1) (num 0) (num 0) (num 0) in
  let y := mkExpenses (num 0) (num 0) (num 0) (dec 3 1) (dec 2 1) (dec 1 1) in
  Permutation (values x) (values y) /\
  totalExpenses x <> totalExpenses y /\
  totalExpenses x <> reduce add (num 0) (rev (values x)).
Proof.
  split; [|split].
  - apply (Permutation_rev (values (mkExpenses (dec 1 1) (dec 2 1) (dec 3 1)
                                      (num 0) (num 0) (num 0)))).
  - vm_compute. discriminate.
  - vm_compute. discriminate.
Qed.

(** ** Chart data *)

(** C7: the chart data has six entries, one per category in declaration
    order; the label is the capitalised key, the value the current amount,
    and the values add up to the total of the expenses. *)
Theorem chartData_six_entries (x : Expenses) :
  wf x ->
  List.length (chartData x) = 6%nat /\
  map name (chartData x) = chartLabels /\
  map name (chartData x) = map (fun c => capitalize (keyName c)) categories /\
  map (fun d => Some (value d)) (chartData x)
  = map (fun c => get (keyName c) x) categories /\
  reduce add (num 0) (map value (chartData x)) = totalExpenses x.
Proof.
  intros W. destruct (wf_inv x W) as (h & t & f & u & e & o & ->).
  repeat split.
Qed.

Lemma chartData_six_entries_witness :
  wf (expenses initialState) /\
  List.length (chartData (expenses initialState)) = 6%nat.
Proof.
  split; [reflexivity|].
  exact (proj1 (chartData_six_entries (expenses initialState) eq_refl)).
Defined.

(** ** Plain-text export *)

(** C2, as the code has it: the text starts with a line break (the template
    literal opens on the line before the heading); then come the heading,
    its underline, a blank line and the income line.  For the initial state
    under the en-US locale the income line reads "Income: $5,000". *)
Theorem budgetText_header (l : Locale) (s : State) :
  (exists rest,
     budgetText l s
     = nl ++ textHeader ++ "Income: $" ++ toLocaleString l (income s) ++ nl ++ rest) /\
  prefix (nl ++ textHeader ++ "Income: $5,000" ++ nl)
         (budgetText en_US initialState) = true.
Proof.
  split.
  - eexists. unfold budgetText, textHeader, nl. cbn [append]. reflexivity.
  - vm_compute. reflexivity.
Qed.

(** C2 as stated fails: the first byte of the text is a line break, not the
    "B" of the heading. *)
Lemma budgetText_starts_with_newline :
  prefix textHeader (budgetText en_US initialState) = false /\
  String.get 0 (budgetText en_US initialState) = Some (ascii_of_N 10).
Proof. vm_compute. split; reflexivity. Qed.

(** ** Exports and the component state *)

Lemma exec_frame (c : Command) (w : World) :
  writes_state c = false -> component (exec c w) = component w.
Proof. destruct c; simpl; intros H; try reflexivity; discriminate H. Qed.

Lemma run_frame (cs : list Command) (w : World) :
  forallb (fun c => negb (writes_state c)) cs = true ->
  component (run cs w) = component w.
Proof.
  unfold run. revert w. induction cs as [|c cs IH]; intros w H; simpl.
  - reflexivity.
  - simpl in H. apply andb_prop in H as [Hc Hcs].
    rewrite (IH _ Hcs). apply exec_frame.
    now destruct (writes_state c).
Qed.

Lemma downloadAsExcel_reads_only (s : State) :
  forallb (fun c => negb (writes_state c)) (downloadAsExcel s) = true.
Proof. reflexivity. Qed.

Lemma downloadAsTxt_reads_only (l : Locale) (s : State) :
  forallb (fun c => negb (writes_state c)) (downloadAsTxt l s) = true.
Proof. reflexivity. Qed.

(** C9: neither export assigns to the state; after either of them the
    income and the six expense entries are what they were. *)
Theorem exports_leave_state (w : World) :
  income (component (clickExcel w)) = income (component w) /\
  expenses (component (clickExcel w)) = expenses (component w) /\
  income (component (clickTxt w)) = income (component w) /\
  expenses (component (clickTxt w)) = expenses (component w).
Proof.
  assert (E : component (clickExcel w) = component w).
  { apply run_frame, downloadAsExcel_reads_only. }
  assert (T : component (clickTxt w) = component w).
  { apply run_frame, downloadAsTxt_reads_only. }
  rewrite E, T. repeat split.
Qed.

(** What the exports do change is the host: one more file and one more
    toast, and the anchor used for the text download is gone again. *)
Lemma clickTxt_host (w : World) :
  let h := host w in
  host (clickTxt w)
  = mkHost (saved h ++ [("my_budget_plan.txt",
                         BlobBody [budgetText (locale h) (component w)] "text/plain")])%list
           (removelast (body h ++ [mkAnchor
              (BlobBody [budgetText (locale h) (component w)] "text/plain")
              "my_budget_plan.txt"]))%list
           (toasts h ++ [mkToast "Budget Downloaded"
                           "Your budget has been saved as a text file"])%list
           (locale h).
Proof. reflexivity. Qed.

Lemma clickTxt_body (w : World) : body (host (clickTxt w)) = body (host w).
Proof. rewrite clickTxt_host. simpl. apply removelast_last. Qed.

Lemma clickTxt_last_saved (w : World) :
  last_saved (host (clickTxt w))
  = Some ("my_budget_plan.txt",
          BlobBody [budgetText (locale (host w)) (component w)] "text/plain").
Proof.
  rewrite clickTxt_host. unfold last_saved. simpl.
  rewrite map_app. simpl. apply last_last.
Qed.

(** ** The text as a function of the state *)

(** C10, as the code has it: under one host locale the text is determined
    by the income and the six amounts; two states that agree on these seven
    numbers give the same text and the same downloaded file, whatever else
    the host holds. *)
Theorem budgetText_deterministic (l : Locale) (s1 s2 : State) :
  wf (expenses s1) -> wf (expenses s2) ->
  income s1 = income s2 ->
  (forall c, get (keyName c) (expenses s1) = get (keyName c) (expenses s2)) ->
  budgetText l s1 = budgetText l s2 /\
  downloadAsTxt l s1 = downloadAsTxt l s2 /\
  (forall h1 h2, locale h1 = l -> locale h2 = l ->
     last_saved (host (clickTxt (mkWorld s1 h1)))
     = last_saved (host (clickTxt (mkWorld s2 h2)))).
Proof.
  intros W1 W2 I E.
  assert (S : s1 = s2).
  { destruct s1 as [i1 e1], s2 as [i2 e2]; simpl in *.
    f_equal; [exact I|]. now apply wf_ext. }
  subst s2. split; [reflexivity|]. split; [reflexivity|].
  intros h1 h2 L1 L2. rewrite !clickTxt_last_saved. simpl. now rewrite L1, L2.
Qed.

Lemma budgetText_deterministic_witness :
  wf (expenses initialState) /\
  budgetText en_US initialState
  = budgetText en_US
      (mkState (num 5000)
         (handleExpenseChange "food" (num 600) (expenses initialState))).
Proof.
  split; [reflexivity|].
  refine (proj1 (budgetText_deterministic en_US initialState
                   (mkState (num 5000)
                      (handleExpenseChange "food" (num 600) (expenses initialState)))
                   eq_refl eq_refl eq_refl _)).
  intros c; destruct c; reflexivity.
Defined.

(** C10 as stated fails: the same state gives another text under another
    host locale, so the seven numbers are not the only input. *)
Lemma budgetText_depends_on_locale :
  budgetText en_US initialState <> budgetText de_DE initialState /\
  (exists h1 h2,
     saved h1 = saved h2 /\ body h1 = body h2 /\ toasts h1 = toasts h2 /\
     last_saved (host (clickTxt (mkWorld initialState h1)))
     <> last_saved (host (clickTxt (mkWorld initialState h2)))).
Proof.
  split.
  - vm_compute. discriminate.
  - exists (mkHost [] [] [] en_US), (mkHost [] [] [] de_DE).
    repeat split. vm_compute. discriminate.
Qed.

(** ** Numerals printed by [toFixed(2)] *)

Lemma append_assoc (a b c : string) : (a ++ b) ++ c = a ++ b ++ c.
Proof. induction a as [|x a IH]; simpl; [reflexivity|now rewrite IH]. Qed.

Lemma all_digits_uint (d : Decimal.uint) :
  all_digits (NilEmpty.string_of_uint d) = true.
Proof. induction d; simpl; auto. Qed.

Lemma digits_all_digits (n : Z) : all_digits (digits n) = true.
Proof.
  unfold digits, NilZero.string_of_uint.
  destruct (N.to_uint (Z.to_N n)) eqn:E; try reflexivity;
    rewrite <- E; apply all_digits_uint.
Qed.

Lemma digits_starts_with_digit (n : Z) : starts_with_digit (digits n) = true.
Proof.
  unfold digits, NilZero.string_of_uint.
  destruct (N.to_uint (Z.to_N n)); reflexivity.
Qed.

Lemma digit_is_digit (d : Z) : 0 <= d <= 9 -> is_digit (digit d) = true.
Proof.
  intros H.
  assert (C : d = 0 \/ d = 1 \/ d = 2 \/ d = 3 \/ d = 4 \/ d = 5 \/ d = 6 \/
              d = 7 \/ d = 8 \/ d = 9) by lia.
  repeat (destruct C as [->|C]; [reflexivity|]). now subst.
Qed.

Lemma skip_digits_app (ds t : string) :
  all_digits ds = true -> starts_with_digit t = false ->
  skip_digits (ds ++ t) = t.
Proof.
  intros A T. induction ds as [|c r IH]; simpl in *.
  - destruct t as [|c t]; [reflexivity|]. simpl in *. now rewrite T.
  - apply andb_prop in A as [-> A]. auto.
Qed.

Lemma unsigned_two_decimals_intro (suffix ds : string) (d1 d2 : ascii) :
  all_digits ds = true -> starts_with_digit ds = true ->
  is_digit d1 = true -> is_digit d2 = true ->
  unsigned_two_decimals suffix (ds ++ "." ++ String d1 (String d2 suffix)) = true.
Proof.
  intros A S D1 D2. unfold unsigned_two_decimals.
  rewrite skip_digits_app by (exact A || reflexivity).
  simpl. rewrite D1, D2, String.eqb_refl.
  destruct ds; [discriminate S|]. simpl in *. now rewrite S.
Qed.

Lemma fixed2_two_decimals (suffix : string) (n : Z) :
  unsigned_two_decimals suffix (fixed2 n ++ suffix) = true.
Proof.
  unfold fixed2. rewrite !append_assoc. simpl.
  apply (unsigned_two_decimals_intro suffix (digits (n / 100))).
  - apply digits_all_digits.
  - apply digits_starts_with_digit.
  - apply digit_is_digit.
    pose proof (Z.mod_pos_bound n 100 ltac:(lia)).
    assert (n mod 100 / 10 < 10) by (apply Z.div_lt_upper_bound; lia).
    assert (0 <= n mod 100 / 10) by (apply Z.div_pos; lia). lia.
  - apply digit_is_digit. pose proof (Z.mod_pos_bound n 10 ltac:(lia)). lia.
Qed.

Lemma is_digit_not_minus (c : ascii) :
  is_digit c = true -> Ascii.eqb c "-" = false.
Proof. destruct (Ascii.eqb_spec c "-") as [->|]; [discriminate|reflexivity]. Qed.

(** A finite number of magnitude below 10^21 is printed with an integer
    part, a point and exactly two fraction digits. *)
Lemma toFixed2_two_decimals (suffix : string) (x : number) :
  isFinite x = true -> ltb (SFabs x) (num (10 ^ 21)) = true ->
  two_decimals_then suffix (toFixed2 x ++ suffix) = true.
Proof.
  intros F B. unfold toFixed2. rewrite F, (ltb_not_leb _ _ B). simpl negb.
  cbv iota zeta.
  pose proof (fixed2_two_decimals suffix (scaled 100 (SFabs x))) as U.
  destruct (ltb x (num 0)).
  - simpl. exact U.
  - simpl append. unfold two_decimals_then.
    destruct (fixed2 (scaled 100 (SFabs x)) ++ suffix) as [|c r] eqn:E;
      [discriminate U|].
    rewrite is_digit_not_minus; [exact U|].
    unfold unsigned_two_decimals in U. simpl in U.
    now apply andb_prop in U as [U _].
Qed.

(** ** Spreadsheet export *)

(** C6, as the code has it: the workbook has one sheet "Budget Summary"
    with the columns "Category" and "Amount" and the rows Income, the six
    capitalised categories in declaration order, Total Expenses, Savings and
    Savings Percentage, written to my_budget_plan.xlsx.  The last amount is
    a string, [toFixed(2)] of the savings percentage followed by "%"; it has
    exactly two fraction digits whenever the savings percentage is finite
    and below 10^21 in magnitude. *)
Theorem downloadAsExcel_rows (i h t f u e o : number) :
  let s := mkState i (mkExpenses h t f u e o) in
  let sp := savingsPercentage s in
  downloadAsExcel s
  = [WriteFile
       [("Budget Summary",
         mkSheet ["Category"; "Amount"]
           [[StrCell "Income"; NumCell i];
            [StrCell "Housing"; NumCell h];
            [StrCell "Transportation"; NumCell t];
            [StrCell "Food"; NumCell f];
            [StrCell "Utilities"; NumCell u];
            [StrCell "Entertainment"; NumCell e];
            [StrCell "Other"; NumCell o];
            [StrCell "Total Expenses"; NumCell (totalExpenses (expenses s))];
            [StrCell "Savings"; NumCell (savings s)];
            [StrCell "Savings Percentage"; StrCell (toFixed2 sp ++ "%")]])]
       "my_budget_plan.xlsx";
     ShowToast (mkToast "Budget Downloaded"
                        "Your budget has been saved as an Excel file")] /\
  (isFinite sp = true -> ltb (SFabs sp) (num (10 ^ 21)) = true ->
   two_decimals_then "%" (toFixed2 sp ++ "%") = true).
Proof.
  intros s sp. split; [reflexivity|]. apply toFixed2_two_decimals.
Qed.

Lemma downloadAsExcel_rows_witness :
  isFinite (savingsPercentage initialState) = true /\
  ltb (SFabs (savingsPercentage initialState)) (num (10 ^ 21)) = true /\
  two_decimals_then "%" (toFixed2 (savingsPercentage initialState) ++ "%") = true.
Proof.
  split; [reflexivity|]. split; [reflexivity|].
  exact (proj2 (downloadAsExcel_rows (num 5000) (num 1500) (num 400) (num 600)
                  (num 300) (num 200) (num 300)) eq_refl eq_refl).
Defined.

(** C6 as stated fails when the income field has been cleared (income 0):
    the quotient is not finite and the cell holds "-Infinity%", or "NaN%"
    when the expenses are zero as well. *)
Lemma downloadAsExcel_percentage_not_numeral :
  let s := mkState (num 0) (expenses initialState) in
  let z := mkState (num 0) (mkExpenses (num 0) (num 0) (num 0) (num 0) (num 0) (num 0)) in
  List.last (excelData s) []
  = record "Savings Percentage" (StrCell "-Infinity%") /\
  two_decimals_then "%" "-Infinity%" = false /\
  List.last (excelData z) [] = record "Savings Percentage" (StrCell "NaN%") /\
  two_decimals_then "%" "NaN%" = false.
Proof. vm_compute. repeat split. Qed.

(** ** Sessions of input and export events *)

Lemma handle_wf (ev : Event) (w : World) :
  wf (expenses (component w)) -> wf (expenses (component (handle ev w))).
Proof.
  intros W. destruct ev as [v|c v| |]; unfold handle.
  - exact W.
  - simpl. now apply set_key_wf.
  - unfold clickExcel. now rewrite run_frame by apply downloadAsExcel_reads_only.
  - unfold clickTxt. now rewrite run_frame by apply downloadAsTxt_reads_only.
Qed.

(** Whatever the user types and presses, the expenses object keeps its six
    keys in declaration order, and the pie keeps its six slices. *)
Theorem session_keeps_six_keys (evs : list Event) (w : World) :
  wf (expenses (component w)) ->
  keys (expenses (component (session evs w))) = expenseKeys /\
  List.length (chartData (expenses (component (session evs w)))) = 6%nat.
Proof.
  intros W.
  assert (S : wf (expenses (component (session evs w)))).
  { unfold session. revert w W. induction evs as [|ev evs IH]; intros w W; simpl.
    - exact W.
    - apply IH, handle_wf, W. }
  split; [exact S|].
  destruct (wf_inv _ S) as (h & t & f & u & e & o & ->). reflexivity.
Qed.

Lemma session_keeps_six_keys_witness :
  wf (expenses initialState) /\
  keys (expenses (component
          (session [ExpenseInput food (num 650); TxtClick; IncomeInput (num 0);
                    ExpenseInput other (dec 5 1); ExcelClick]
                   (mkWorld initialState (mkHost [] [] [] en_US)))))
  = expenseKeys.
Proof.
  split; [reflexivity|].
  exact (proj1 (session_keeps_six_keys
                  [ExpenseInput food (num 650); TxtClick; IncomeInput (num 0);
                   ExpenseInput other (dec 5 1); ExcelClick]
                  (mkWorld initialState (mkHost [] [] [] en_US)) eq_refl)).
Defined.

Lemma clickExcel_host (w : World) :
  let h := host w in
  host (clickExcel w)
  = mkHost (saved h ++ [("my_budget_plan.xlsx", XlsxBody (excelWorkbook (component w)))])%list
           (body h)
           (toasts h ++ [mkToast "Budget Downloaded"
                           "Your budget has been saved as an Excel file"])%list
           (locale h).
Proof. reflexivity. Qed.

Lemma input_host (ev : Event) (w : World) :
  isExport ev = false -> host (handle ev w) = host w.
Proof. destruct ev; simpl; intros H; try discriminate H; reflexivity. Qed.

Lemma export_host (ev : Event) (w : World) :
  isExport ev = true ->
  exists file toast,
    host (handle ev w)
    = mkHost (saved (host w) ++ [file])%list (body (host w))
             (toasts (host w) ++ [toast])%list (locale (host w)) /\
    title toast = "Budget Downloaded".
Proof.
  destruct ev; intros H; try discriminate H; unfold handle.
  - do 2 eexists. rewrite clickExcel_host. split; reflexivity.
  - do 2 eexists. rewrite clickTxt_host. simpl. rewrite removelast_last.
    split; reflexivity.
Qed.

Lemma session_host (evs : list Event) (w : World) :
  exists files notes,
    saved (host (session evs w)) = (saved (host w) ++ files)%list /\
    toasts (host (session evs w)) = (toasts (host w) ++ notes)%list /\
    List.length files = List.length (filter isExport evs) /\
    List.length notes = List.length (filter isExport evs) /\
    Forall (fun t => title t = "Budget Downloaded") notes /\
    body (host (session evs w)) = body (host w) /\
    locale (host (session evs w)) = locale (host w).
Proof.
  unfold session. revert w. induction evs as [|ev evs IH]; intros w; simpl.
  - exists [], []. rewrite !app_nil_r. repeat split. constructor.
  - destruct (IH (handle ev w)) as (fs & ns & S & T & Lf & Ln & Ft & B & L).
    destruct (isExport ev) eqn:E.
    + destruct (export_host ev w E) as (file & toast & H & Tt).
      exists (file :: fs), (toast :: ns).
      rewrite S, T, B, L, H. simpl. rewrite <- !app_assoc. simpl.
      rewrite Lf, Ln. repeat split. now constructor.
    + rewrite (input_host ev w E) in *. now exists fs, ns.
Qed.


(** Every press of an export button hands exactly one more file to the
    browser and shows exactly one more toast; typing into a field does
    neither.  Files and toasts already there are kept, and the document
    body and the locale are left as they were. *)
Theorem session_exports (evs : list Event) (w : World) :
  exists files notes,
    saved (host (session evs w)) = (saved (host w) ++ files)%list /\
    toasts (host (session evs w)) = (toasts (host w) ++ notes)%list /\
    List.length files = List.length (filter isExport evs) /\
    List.length notes = List.length (filter isExport evs) /\
    Forall (fun t => title t = "Budget Downloaded") notes /\
    body (host (session evs w)) = body (host w) /\
    locale (host (session evs w)) = locale (host w).
Proof. apply session_host. Qed.

Lemma session_component_exports (evs : list Event) (w : World) :
  forallb isExport evs = true -> component (session evs w) = component w.
Proof.
  unfold session. revert w. induction evs as [|ev evs IH]; intros w H; simpl.
  - reflexivity.
  - simpl in H. apply andb_prop in H as [E H]. rewrite (IH _ H).
    destruct ev; try discriminate E; unfold handle.
    + apply run_frame, downloadAsExcel_reads_only.
    + apply run_frame, downloadAsTxt_reads_only.
Qed.

Lemma clickExcel_last_saved (w : World) :
  last_saved (host (clickExcel w))
  = Some ("my_budget_plan.xlsx", XlsxBody (excelWorkbook (component w))).
Proof.
  rewrite clickExcel_host. unfold last_saved. simpl.
  rewrite map_app. simpl. apply last_last.
Qed.

(** Exporting again, with nothing typed in between, gives the same file
    again: earlier exports do not change what a later export writes. *)
Theorem export_repeatable (evs : list Event) (w : World) :
  forallb isExport evs = true ->
  last_saved (host (clickTxt (session evs w))) = last_saved (host (clickTxt w)) /\
  last_saved (host (clickExcel (session evs w))) = last_saved (host (clickExcel w)).
Proof.
  intros H. rewrite !clickTxt_last_saved, !clickExcel_last_saved.
  rewrite (session_component_exports evs w H).
  destruct (session_host evs w) as (_ & _ & _ & _ & _ & _ & _ & _ & ->).
  split; reflexivity.
Qed.

Lemma export_repeatable_witness :
  forallb isExport [TxtClick; ExcelClick; TxtClick] = true /\
  last_saved (host (clickTxt (session [TxtClick; ExcelClick; TxtClick]
                                (mkWorld initialState (mkHost [] [] [] en_US)))))
  = last_saved (host (clickTxt (mkWorld initialState (mkHost [] [] [] en_US)))).
Proof.
  split; [reflexivity|].
  exact (proj1 (export_repeatable [TxtClick; ExcelClick; TxtClick]
                  (mkWorld initialState (mkHost [] [] [] en_US)) eq_refl)).
Defined.

(** ** Updates of the expenses object compose *)

Section SetLaws.
Context {V : Type}.
Implicit Types (o : object V) (k : string) (v : V).

Lemma assign_assign_same k v1 v2 o :
  assign k v2 (assign k v1 o) = assign k v2 o.
Proof.
  induction o as [|[k0 v0] r IH]; simpl.
  - now rewrite String.eqb_refl.
  - destruct (String.eqb k k0) eqn:E; simpl; rewrite E; [reflexivity|].
    now rewrite IH.
Qed.

Lemma assign_get_same k v o : get k o = Some v -> assign k v o = o.
Proof.
  induction o as [|[k0 v0] r IH]; simpl; [discriminate|].
  destruct (String.eqb_spec k k0) as [->|N].
  - now intros [= ->].
  - intros H. now rewrite IH.
Qed.

Lemma assign_assign_comm k k' v v' o :
  k <> k' -> In k (keys o) -> In k' (keys o) ->
  assign k v (assign k' v' o) = assign k' v' (assign k v o).
Proof.
  intros N. unfold keys. induction o as [|[k0 v0] r IH]; simpl; [tauto|].
  intros Hk Hk'.
  destruct (String.eqb_spec k k0) as [Ek|Nk];
    destruct (String.eqb_spec k' k0) as [Ek'|Nk']; simpl.
  - congruence.
  - subst k0. rewrite String.eqb_refl.
    destruct (String.eqb_spec k' k); [congruence|reflexivity].
  - subst k0. rewrite String.eqb_refl.
    destruct (String.eqb_spec k k'); [congruence|reflexivity].
  - destruct (String.eqb_spec k k0); [congruence|].
    destruct (String.eqb_spec k' k0); [congruence|].
    f_equal. apply IH; [destruct Hk | destruct Hk']; congruence.
Qed.
End SetLaws.

(** Updates through [handleExpenseChange] compose as assignments do: a
    second value for the same key replaces the first; writing the value a
    key already has changes nothing; and on an object that has its six keys
    the updates of two different categories can be made in either order. *)
Theorem handleExpenseChange_composes (x : Expenses) (c c' : Category)
    (v v' : number) :
  wf x ->
  handleExpenseChange (keyName c) v' (handleExpenseChange (keyName c) v x)
  = handleExpenseChange (keyName c) v' x /\
  (get (keyName c) x = Some v -> handleExpenseChange (keyName c) v x = x) /\
  (c <> c' ->
   handleExpenseChange (keyName c) v (handleExpenseChange (keyName c') v' x)
   = handleExpenseChange (keyName c') v' (handleExpenseChange (keyName c) v x)).
Proof.
  intros W. unfold handleExpenseChange. rewrite !set_keyName.
  split; [apply assign_assign_same|].
  split; [apply assign_get_same|].
  intros N. apply assign_assign_comm.
  - intros E. apply N, keyName_inj, E.
  - rewrite W. apply keyName_in.
  - rewrite W. apply keyName_in.
Qed.

Lemma handleExpenseChange_composes_witness :
  wf (expenses initialState) /\
  handleExpenseChange "food" (num 1)
    (handleExpenseChange "other" (num 2) (expenses initialState))
  = handleExpenseChange "other" (num 2)
      (handleExpenseChange "food" (num 1) (expenses initialState)).
Proof.
  split; [reflexivity|].
  refine (proj2 (proj2 (handleExpenseChange_composes (expenses initialState)
                          food other (num 1) (num 2) eq_refl)) _).
  discriminate.
Defined.

(** Without the six keys the order does matter: two new names are appended
    in the order of the calls. *)
Example handleExpenseChange_order_of_new_keys :
  handleExpenseChange "a" (num 1) (handleExpenseChange "b" (num 2) [])
  <> handleExpenseChange "b" (num 2) (handleExpenseChange "a" (num 1) []).
Proof. discriminate. Qed.

(** ** Colours of the pie slices *)

Lemma cellFill_defined (index : nat) :
  exists c, cellFill index = Some c /\ In c COLORS.
Proof.
  unfold cellFill. destruct (nth_error COLORS (index mod List.length COLORS)) eqn:E.
  - exists s. split; [reflexivity|]. eapply nth_error_In, E.
  - apply nth_error_None in E.
    pose proof (Nat.mod_upper_bound index (List.length COLORS)) as B.
    simpl in *. lia.
Qed.

(** The palette index never runs out of range: every slice, however many
    there are, gets one of the six colours, the colours repeat with period
    six, and the six slices of a well-formed expenses object get the six
    colours of the palette in order, all different. *)
Theorem cells_colours (data : list ChartEntry) (index : nat) :
  List.length (cells data) = List.length data /\
  Forall (fun c => exists col, fill c = Some col /\ In col COLORS) (cells data) /\
  cellFill (index + 6) = cellFill index /\
  NoDup COLORS /\
  (forall x, wf x -> map fill (cells (chartData x)) = map Some COLORS).
Proof.
  split; [|split; [|split; [|split]]].
  - unfold cells, mapi. rewrite length_map, length_combine, length_seq. lia.
  - apply Forall_forall. intros c H. unfold cells, mapi in H.
    apply in_map_iff in H as ([i a] & <- & _). simpl. apply cellFill_defined.
  - unfold cellFill. f_equal. change (List.length COLORS) with 6%nat.
    rewrite <- (Nat.Div0.add_mod_idemp_r index 6 6). simpl (6 mod 6)%nat.
    now rewrite Nat.add_0_r.
  - unfold COLORS. repeat constructor; simpl; intros H;
      repeat (destruct H as [H|H]; [discriminate H|]); exact H.
  - intros x W. destruct (wf_inv x W) as (h & t & f & u & e & o & ->).
    reflexivity.
Qed.

(** ** Signs and zero *)

Lemma ltb_is_neg (x : number) : ltb x (num 0) = is_neg x.
Proof. rewrite ltb_zero. destruct x as [s|s| |s m e]; try destruct s; reflexivity. Qed.

Lemma num_100_finite : exists m e, num 100 = S754_finite false m e.
Proof. vm_compute. now do 2 eexists. Qed.

Lemma binary_round_aux_not_neg (m e : Z) (l : location) :
  is_neg (binary_round_aux prec emax false m e l) = false.
Proof.
  unfold binary_round_aux.
  destruct (shr_fexp prec emax m e l) as [mrs' e'].
  destruct (shr_fexp prec emax _ e' loc_Exact) as [mrs'' e''].
  destruct (shr_m mrs''); [reflexivity| |reflexivity].
  destruct (e'' <=? emax - prec); reflexivity.
Qed.

Lemma div_not_neg (x y : number) :
  is_neg x = false -> signbit y = false -> is_neg (div x y) = false.
Proof.
  destruct x as [sx|sx| |sx mx ex], y as [sy|sy| |sy my ey]; simpl;
    intros Hx Hy; subst; try reflexivity; try (destruct sx; try discriminate Hx; reflexivity).
  destruct sx; [discriminate Hx|]. unfold div. cbn [SFdiv xorb].
  destruct (SFdiv_core_binary prec emax (Z.pos mx) ex (Z.pos my) ey) as [[mz ez] lz].
  apply binary_round_aux_not_neg.
Qed.

Lemma mul_100_not_neg (r : number) :
  is_neg r = false -> is_neg (mul r (num 100)) = false.
Proof.
  destruct num_100_finite as (m & e & ->).
  destruct r as [s|s| |s mr er]; simpl; intros H; try reflexivity.
  - destruct s; [discriminate H|reflexivity].
  - destruct s; [discriminate H|]. apply binary_round_aux_not_neg.
Qed.

(** The "expenses exceed income" warning is never shown while the savings
    are not below zero and the income carries no minus sign; the message is
    then one of the other three. *)
Theorem no_warning_without_deficit (s : State) :
  ltb (savings s) (num 0) = false -> signbit (income s) = false ->
  recommendation s <> msg_exceed /\
  (recommendation s = msg_less10 \/ recommendation s = msg_aim20 \/
   recommendation s = msg_great).
Proof.
  intros S I. rewrite ltb_is_neg in S.
  assert (P : ltb (savingsPercentage s) (num 0) = false).
  { rewrite ltb_is_neg. apply mul_100_not_neg, div_not_neg; assumption. }
  unfold recommendation, recommendationFor. rewrite P.
  destruct (ltb (savingsPercentage s) (num 10));
    [|destruct (ltb (savingsPercentage s) (num 20))];
    (split; [discriminate|tauto]).
Qed.

Lemma no_warning_without_deficit_witness :
  ltb (savings initialState) (num 0) = false /\
  signbit (income initialState) = false /\
  recommendation initialState <> msg_exceed.
Proof.
  split; [reflexivity|]. split; [reflexivity|].
  exact (proj1 (no_warning_without_deficit initialState eq_refl eq_refl)).
Defined.

(** ** An income of zero *)

(** With the income field cleared (income 0) the quotient is not a number
    any more.  If the expenses have a positive total the percentage is
    minus infinity: the warning is shown and the exports print
    "-Infinity%".  If the total is zero as well the percentage is NaN, which
    fails all three comparisons: the praise is shown and the exports print
    "NaN%". *)
Theorem income_zero (x : Expenses) :
  (isFinite (totalExpenses x) = true -> ltb (num 0) (totalExpenses x) = true ->
   savingsPercentage (mkState (num 0) x) = S754_infinity true /\
   recommendation (mkState (num 0) x) = msg_exceed /\
   toFixed2 (savingsPercentage (mkState (num 0) x)) = "-Infinity") /\
  (totalExpenses x = num 0 ->
   savingsPercentage (mkState (num 0) x) = NaN /\
   recommendation (mkState (num 0) x) = msg_great /\
   toFixed2 (savingsPercentage (mkState (num 0) x)) = "NaN").
Proof.
  unfold recommendation, savingsPercentage, savings. cbn [income expenses].
  split.
  - intros F P. destruct num_100_finite as (m100 & e100 & E100).
    destruct (totalExpenses x) as [s|s| |s m e]; try discriminate F;
      destruct s; try discriminate P.
    rewrite E100. repeat split.
  - intros ->. repeat split.
Qed.

Lemma income_zero_witness :
  isFinite (totalExpenses (expenses initialState)) = true /\
  ltb (num 0) (totalExpenses (expenses initialState)) = true /\
  recommendation (mkState (num 0) (expenses initialState)) = msg_exceed.
Proof.
  split; [reflexivity|]. split; [reflexivity|].
  exact (proj1 (proj2 (proj1 (income_zero (expenses initialState))
                         eq_refl eq_refl))).
Defined.

(** ** Whole-number budgets *)






(** ** Printing whole numbers *)

Lemma scaled_nf (s : bool) (p : positive) (k : Z) :
  Zpos p < 2 ^ 53 -> scaled k (nf s p) = Zpos p * k.
Proof.
  intros H. pose proof (digits_bound p H) as D.
  unfold nf, scaled. set (d := Zpos (digits2_pos p)) in *.
  assert (0 < d) by (unfold d; lia).
  destruct (Z.leb_spec 0 (d - 53)) as [L|L].
  - replace (d - 53) with 0 by lia. replace (53 - d) with 0 by lia.
    change (shl p (Z.to_nat 0)) with p. rewrite Z.pow_0_r. lia.
  - rewrite shl_Z, Z2Nat.id by lia.
    replace (- (d - 53)) with (53 - d) by lia.
    set (j := 2 ^ (53 - d)).
    assert (0 < j) by (apply Z.pow_pos_nonneg; lia).
    replace (2 * (Zpos p * j) * k + j) with (Zpos p * k * (2 * j) + j) by ring.
    rewrite Z.div_add_l by lia. rewrite Z.div_small by lia. lia.
Qed.

Lemma append_empty_r (s : string) : s ++ "" = s.
Proof. induction s as [|c s IH]; simpl; [reflexivity|now rewrite IH]. Qed.

Lemma wholeOf_nf (p : positive) :
  Zpos p < 2 ^ 53 ->
  wholeOf (shl p (Z.to_nat (53 - Zpos (digits2_pos p))))
          (Zpos (digits2_pos p) - 53)
  = Some (Zpos p).
Proof.
  intros H. pose proof (digits_bound p H) as D. unfold wholeOf.
  set (d := Zpos (digits2_pos p)) in *. assert (0 < d) by (unfold d; lia).
  rewrite shl_Z, Z2Nat.id by lia.
  replace (- (d - 53)) with (53 - d) by lia.
  assert (P : 0 < 2 ^ (53 - d)) by (apply Z.pow_pos_nonneg; lia).
  rewrite Z.mod_mul, Z.div_mul by lia.
  assert (B : Zpos p * 2 ^ (53 - d) < 2 ^ 53).
  { pose proof (digits_upper p) as U. fold d in U.
    replace (2 ^ 53) with (2 ^ d * 2 ^ (53 - d))
      by (rewrite <- Z.pow_add_r by lia; f_equal; lia).
    nia. }
  destruct (Z.ltb_spec (Zpos p * 2 ^ (53 - d)) (2 ^ 53)); [|lia].
  destruct (Z.leb_spec (d - 53) 0); [|lia]. reflexivity.
Qed.

Lemma thousandths_nf (s : bool) (p : positive) :
  Zpos p < 2 ^ 53 -> thousandths (nf s p) = Zpos p * 1000.
Proof.
  intros H. unfold thousandths, nf, toDecimal.
  now rewrite wholeOf_nf by exact H.
Qed.

Lemma toLocaleString_nf (l : Locale) (s : bool) (p : positive) :
  Zpos p < 2 ^ 53 ->
  toLocaleString l (nf s p)
  = (if s then "-" else "") ++ grouped l (digits (Zpos p)).
Proof.
  intros H. unfold toLocaleString, nf at 1. fold (nf s p).
  rewrite thousandths_nf by exact H. cbn [signbit].
  rewrite Z.mod_mul, Z.div_mul by lia.
  change (fraction3 0) with "". cbn [String.eqb].
  now rewrite append_empty_r.
Qed.

(** A whole number is printed as its decimal digits in the locale's
    groups, with a minus sign in front when it is negative and with no
    fraction. *)
Lemma toLocaleString_whole (l : Locale) (z : Z) :
  Z.abs z < 2 ^ 53 ->
  toLocaleString l (num z)
  = (if z <? 0 then "-" else "") ++ grouped l (digits (Z.abs z)).
Proof.
  intros H. destruct z as [|p|p].
  - unfold toLocaleString. cbn. now rewrite append_empty_r.
  - rewrite num_pos by exact H. now rewrite toLocaleString_nf.
  - rewrite num_neg by exact H. now rewrite toLocaleString_nf.
Qed.

Lemma group3_short (sep s : string) :
  (String.length s <= 3)%nat -> group3 sep s = s.
Proof.
  induction s as [|c r IH]; [reflexivity|]. cbn [group3 String.length].
  intros H. rewrite IH by lia.
  destruct (String.length r) as [|[|[|n]]]; try lia; reflexivity.
Qed.

Lemma insert_seps_en_US (s : string) : insert_seps en_US s = group3 "," s.
Proof.
  induction s as [|c r IH]; [reflexivity|]. cbn [insert_seps group3].
  rewrite IH. f_equal.
  replace (sep_before en_US (String.length r))
    with ((0 <? String.length r)%nat && (String.length r mod 3 =? 0)%nat);
    [reflexivity|].
  unfold sep_before. cbn [primaryGroup secondaryGroup en_US].
  set (n := String.length r).
  destruct (Nat.leb_spec 3 n) as [L|L].
  - replace n with (n - 3 + 1 * 3)%nat at 2 by lia.
    rewrite Nat.Div0.mod_add. now rewrite andb_true_r.
  - rewrite andb_false_r. destruct n as [|[|[|n]]]; try lia; reflexivity.
Qed.

(** Under the en-US locale the grouping is by threes with commas. *)
Lemma grouped_en_US (s : string) : grouped en_US s = group3 "," s.
Proof.
  unfold grouped. cbn [primaryGroup minGroupingDigits en_US].
  destruct (Nat.ltb_spec (String.length s) (3 + 1)).
  - symmetry. apply group3_short. lia.
  - apply insert_seps_en_US.
Qed.

(** The other grouping conventions of the model, on the numbers on which
    they show. *)
Example grouping_conventions :
  toLocaleString es_ES (num 5000) = "5000" /\
  toLocaleString es_ES (num 12345) = "12.345" /\
  toLocaleString en_IN (num 1234567) = "12,34,567" /\
  toLocaleString de_DE (dec 12345678 4) = "1.234,568" /\
  toLocaleString en_US (dec 10005 4) = "1.001" /\
  toLocaleString en_US (num (2 ^ 70)) = "1,180,591,620,717,411,300,000" /\
  toLocaleString en_US (add (dec 1 1) (dec 2 1)) = "0.3" /\
  toLocaleString en_US (dec (-1) 4) = "-0".
Proof. vm_compute. repeat split. Qed.

Lemma is_digit_neq (a c : ascii) :
  is_digit a = true -> is_digit c = false -> Ascii.eqb a c = false.
Proof. intros A C. destruct (Ascii.eqb_spec a c) as [->|]; congruence. Qed.

Lemma without_digits (c : ascii) (s : string) :
  is_digit c = false -> all_digits s = true -> without c s = s.
Proof.
  intros C. induction s as [|a r IH]; simpl; [reflexivity|].
  intros A. apply andb_prop in A as [A R].
  now rewrite (is_digit_neq a c A C), IH.
Qed.

(** Taking the separators out of a grouped numeral gives the digits back. *)
Lemma without_group3 (c : ascii) (s : string) :
  is_digit c = false -> all_digits s = true ->
  without c (group3 (String c "") s) = s.
Proof.
  intros C. induction s as [|a r IH]; [reflexivity|].
  cbn [group3 without all_digits].
  intros A. apply andb_prop in A as [A R].
  rewrite (is_digit_neq a c A C).
  destruct ((0 <? String.length r)%nat && (String.length r mod 3 =? 0)%nat).
  - cbn [append without]. rewrite Ascii.eqb_refl. now rewrite IH.
  - now rewrite IH.
Qed.

(** Number of separators in a grouped numeral of [n] digits. *)
Lemma length_group3 (sep : string) (s : string) :
  String.length (group3 sep s)
  = (String.length s + String.length sep * ((String.length s - 1) / 3))%nat.
Proof.
  assert (L : forall a b, String.length (a ++ b)
                          = (String.length a + String.length b)%nat).
  { intros a b. induction a as [|x a IH]; simpl; [reflexivity|now rewrite IH]. }
  induction s as [|a r IH]; [cbn; lia|].
  cbn [group3 String.length].
  set (k := String.length r) in *. replace (S k - 1)%nat with k by lia.
  pose proof (Nat.div_mod_eq k 3) as Q.
  pose proof (Nat.mod_upper_bound k 3 ltac:(lia)) as U.
  pose proof (Nat.div_mod_eq (k - 1) 3) as Q'.
  pose proof (Nat.mod_upper_bound (k - 1) 3 ltac:(lia)) as U'.
  destruct (Nat.ltb_spec 0 k) as [P|P];
    destruct (Nat.eqb_spec (k mod 3) 0) as [Z0|N0]; cbn [andb];
    rewrite ?L, IH.
  - assert (E : (k / 3 = S ((k - 1) / 3))%nat) by lia. rewrite E. lia.
  - assert (E : (k / 3 = (k - 1) / 3)%nat) by lia. rewrite E. lia.
  - assert (E : (k / 3 = (k - 1) / 3)%nat) by (f_equal; lia). rewrite E. lia.
  - assert (E : (k / 3 = (k - 1) / 3)%nat) by (f_equal; lia). rewrite E. lia.
Qed.

(** When the savings percentage is a whole number it is printed with ".00". *)
Lemma num_1e21_finite : exists m, num (10 ^ 21) = S754_finite false m 17.
Proof. vm_compute. now eexists. Qed.

Lemma toFixed2_nf (s : bool) (p : positive) :
  Zpos p < 2 ^ 53 ->
  toFixed2 (nf s p) = (if s then "-" else "") ++ digits (Zpos p) ++ ".00".
Proof.
  intros H. pose proof (digits_bound p H) as D.
  unfold toFixed2. rewrite ltb_is_neg.
  change (isFinite (nf s p)) with true. change (SFabs (nf s p)) with (nf false p).
  replace (is_neg (nf s p)) with s by (destruct s; reflexivity). cbn [negb].
  assert (L : leb (num (10 ^ 21)) (nf false p) = false).
  { destruct num_1e21_finite as (m & ->). unfold leb, SFleb, nf. cbn [SFcompare].
    destruct (Z.compare_spec 17 (Zpos (digits2_pos p) - 53));
      reflexivity || lia. }
  rewrite L, scaled_nf by exact H. unfold fixed2.
  rewrite Z.div_mul, Z.mod_mul by lia.
  replace (Zpos p * 100 mod 10) with 0
    by (replace (Zpos p * 100) with (Zpos p * 10 * 10) by lia;
        now rewrite Z.mod_mul by lia).
  reflexivity.
Qed.

Lemma last_app_cons {A} (l l' : list A) (x d : A) :
  List.last (l ++ x :: l') d = List.last (x :: l') d.
Proof.
  induction l as [|y l IH]; [reflexivity|].
  cbn [app]. rewrite <- IH. destruct l; reflexivity.
Qed.

(** A whole-number savings percentage is printed with its digits and
    ".00" in both exports: "34.00%", "-25.00%", "0.00%". *)
Theorem whole_percentage_printed (s : State) (z : Z) :
  savingsPercentage s = num z -> Z.abs z < 2 ^ 53 ->
  toFixed2 (savingsPercentage s)
  = (if z <? 0 then "-" else "") ++ digits (Z.abs z) ++ ".00" /\
  List.last (excelData s) []
  = record "Savings Percentage"
      (StrCell ((if z <? 0 then "-" else "") ++ digits (Z.abs z) ++ ".00%")).
Proof.
  intros E H.
  assert (T : toFixed2 (num z)
              = (if z <? 0 then "-" else "") ++ digits (Z.abs z) ++ ".00").
  { destruct z as [|p|p].
    - reflexivity.
    - rewrite num_pos by exact H. now apply toFixed2_nf.
    - rewrite num_neg by exact H. now apply toFixed2_nf. }
  split; [now rewrite E|].
  unfold excelData. rewrite app_assoc, last_app_cons. cbn [List.last].
  now rewrite E, T, !append_assoc.
Qed.

Lemma whole_percentage_printed_witness :
  savingsPercentage (mkState (num 2000)
     (mkExpenses (num 2500) (num 0) (num 0) (num 0) (num 0) (num 0)))
  = num (-25) /\
  toFixed2 (savingsPercentage (mkState (num 2000)
     (mkExpenses (num 2500) (num 0) (num 0) (num 0) (num 0) (num 0))))
  = "-25.00".
Proof.
  split; [vm_compute; reflexivity|].
  refine (proj1 (whole_percentage_printed
            (mkState (num 2000)
               (mkExpenses (num 2500) (num 0) (num 0) (num 0) (num 0) (num 0)))
            (-25) _ _)).
  - vm_compute; reflexivity.
  - reflexivity.
Defined.

(** ** The total follows the edits *)



(** ** The lines of the text export *)

Lemma no_nl_app (a b : string) : no_nl (a ++ b) = no_nl a && no_nl b.
Proof.
  induction a as [|c a IH]; [reflexivity|].
  cbn [append no_nl]. now rewrite IH, andb_assoc.
Qed.

Lemma is_digit_no_nl (c : ascii) :
  is_digit c = true -> negb (Ascii.eqb c (ascii_of_N 10)) = true.
Proof.
  intros H. destruct (Ascii.eqb_spec c (ascii_of_N 10)) as [->|];
    [discriminate H|reflexivity].
Qed.

Lemma all_digits_no_nl (s : string) : all_digits s = true -> no_nl s = true.
Proof.
  induction s as [|c s IH]; [reflexivity|]. cbn [all_digits no_nl].
  intros H. apply andb_prop in H as [C S].
  now rewrite (is_digit_no_nl c C), IH.
Qed.

Lemma no_nl_group3 (sep s : string) :
  no_nl sep = true -> no_nl s = true -> no_nl (group3 sep s) = true.
Proof.
  intros P. induction s as [|c s IH]; [reflexivity|].
  cbn [group3 no_nl]. intros H. apply andb_prop in H as [-> S].
  destruct ((0 <? String.length s)%nat && (String.length s mod 3 =? 0)%nat);
    rewrite ?no_nl_app, ?P, IH by exact S; reflexivity.
Qed.

Lemma no_nl_digit (d : Z) :
  0 <= d <= 9 -> no_nl (String (digit d) "") = true.
Proof.
  intros H. cbn [no_nl]. now rewrite is_digit_no_nl by now apply digit_is_digit.
Qed.

Lemma no_nl_cons_digit (d : Z) (s : string) :
  0 <= d <= 9 -> no_nl s = true -> no_nl (String (digit d) s) = true.
Proof.
  intros H S. cbn [no_nl].
  now rewrite is_digit_no_nl, S by now apply digit_is_digit.
Qed.

Lemma no_nl_fraction3 (r : Z) : 0 <= r < 1000 -> no_nl (fraction3 r) = true.
Proof.
  intros H. unfold fraction3.
  assert (0 <= r / 100 <= 9).
  { split; [apply Z.div_pos; lia|].
    assert (r / 100 < 10) by (apply Z.div_lt_upper_bound; lia). lia. }
  pose proof (Z.mod_pos_bound (r / 10) 10 ltac:(lia)).
  pose proof (Z.mod_pos_bound r 10 ltac:(lia)).
  destruct (r =? 0); [reflexivity|].
  destruct (r mod 100 =? 0); [|destruct (r mod 10 =? 0)];
    repeat (apply no_nl_cons_digit; [lia|]); reflexivity.
Qed.

Lemma no_nl_insert_seps (l : Locale) (s : string) :
  no_nl (groupSep l) = true -> no_nl s = true -> no_nl (insert_seps l s) = true.
Proof.
  intros P. induction s as [|c s IH]; [reflexivity|].
  cbn [insert_seps no_nl]. intros H. apply andb_prop in H as [-> S].
  destruct (sep_before l (String.length s));
    rewrite ?no_nl_app, ?P, IH by exact S; reflexivity.
Qed.

Lemma no_nl_grouped (l : Locale) (s : string) :
  no_nl (groupSep l) = true -> no_nl s = true -> no_nl (grouped l s) = true.
Proof.
  intros P S. unfold grouped.
  destruct (String.length s <? primaryGroup l + minGroupingDigits l)%nat;
    [exact S|now apply no_nl_insert_seps].
Qed.

Lemma no_nl_toLocaleString (l : Locale) (x : number) :
  no_nl (groupSep l) = true -> no_nl (decimalSep l) = true ->
  no_nl (toLocaleString l x) = true.
Proof.
  intros G D.
  assert (F : forall x', no_nl
                ((if signbit x' then "-" else "") ++
                 grouped l (digits (thousandths x' / 1000)) ++
                 (if String.eqb (fraction3 (thousandths x' mod 1000)) ""
                  then ""
                  else decimalSep l ++ fraction3 (thousandths x' mod 1000)))
              = true).
  { intros x'. rewrite !no_nl_app.
    rewrite no_nl_grouped
      by (exact G || apply all_digits_no_nl, digits_all_digits).
    assert (R : no_nl (fraction3 (thousandths x' mod 1000)) = true)
      by (apply no_nl_fraction3, Z.mod_pos_bound; lia).
    destruct (signbit x');
      destruct (String.eqb (fraction3 (thousandths x' mod 1000)) "");
      rewrite ?no_nl_app, ?D, ?R; reflexivity. }
  destruct x as [s|s| |s m e].
  - apply (F (S754_zero s)).
  - destruct s; reflexivity.
  - reflexivity.
  - apply (F (S754_finite s m e)).
Qed.

Lemma no_nl_NumberToString_exp (x : number) :
  no_nl (NumberToString_exp x) = true.
Proof.
  destruct x as [s|s| |s m e]; try reflexivity.
  unfold NumberToString_exp. destruct (shortest 17 1 m e) as [sg n].
  pose proof (digits_all_digits sg) as A.
  pose proof (all_digits_no_nl _ (digits_all_digits (n - 1))) as N.
  destruct (digits sg) as [|d0 rest]; [reflexivity|].
  cbn [all_digits] in A. apply andb_prop in A as [A0 A].
  pose proof (is_digit_no_nl d0 A0) as B.
  destruct rest as [|d1 rest]; cbn [append no_nl]; rewrite B; cbn [andb].
  - exact N.
  - rewrite no_nl_app. cbn [no_nl]. rewrite N.
    cbn [all_digits] in A. apply andb_prop in A as [A1 A].
    now rewrite (is_digit_no_nl d1 A1), (all_digits_no_nl rest A).
Qed.

Lemma no_nl_fixed2 (n : Z) : no_nl (fixed2 n) = true.
Proof.
  unfold fixed2. rewrite no_nl_app.
  rewrite (all_digits_no_nl _ (digits_all_digits (n / 100))).
  pose proof (Z.mod_pos_bound n 100 ltac:(lia)).
  pose proof (Z.mod_pos_bound n 10 ltac:(lia)).
  assert (n mod 100 / 10 < 10) by (apply Z.div_lt_upper_bound; lia).
  assert (0 <= n mod 100 / 10) by (apply Z.div_pos; lia).
  cbn [append no_nl].
  rewrite (is_digit_no_nl (digit (n mod 100 / 10)))
    by (apply digit_is_digit; lia).
  rewrite (is_digit_no_nl (digit (n mod 10))) by (apply digit_is_digit; lia).
  reflexivity.
Qed.

Lemma no_nl_toFixed2 (x : number) : no_nl (toFixed2 x) = true.
Proof.
  unfold toFixed2. destruct (isFinite x) eqn:F; cbn [negb].
  - destruct (leb (num (10 ^ 21)) (SFabs x)); rewrite no_nl_app;
      rewrite ?no_nl_NumberToString_exp, ?no_nl_fixed2;
      destruct (ltb x (num 0)); reflexivity.
  - destruct x as [s|s| |s m e]; try discriminate F;
      try destruct s; reflexivity.
Qed.

Lemma no_nl_recommendation (s : State) : no_nl (recommendation s) = true.
Proof.
  unfold recommendation, recommendationFor.
  destruct (ltb _ (num 0)); [reflexivity|].
  destruct (ltb _ (num 10)); [reflexivity|].
  destruct (ltb _ (num 20)); reflexivity.
Qed.

Lemma lines_no_nl (a : string) : no_nl a = true -> lines a = [a].
Proof.
  induction a as [|c a IH]; [reflexivity|]. cbn [no_nl lines].
  intros H. apply andb_prop in H as [C A].
  destruct (Ascii.eqb c (ascii_of_N 10)); [discriminate C|].
  now rewrite (IH A).
Qed.

Lemma lines_app_nl (a b : string) :
  no_nl a = true -> lines (a ++ nl ++ b) = a :: lines b.
Proof.
  induction a as [|c a IH]; [reflexivity|]. cbn [no_nl append lines].
  intros H. apply andb_prop in H as [C A].
  destruct (Ascii.eqb c (ascii_of_N 10)); [discriminate C|].
  now rewrite (IH A).
Qed.

(** Splitting at the line breaks undoes joining with them. *)
Lemma lines_join (ls : list string) :
  ls <> [] -> Forall (fun a => no_nl a = true) ls -> lines (join nl ls) = ls.
Proof.
  intros N F. induction F as [|a ls A F IH]; [congruence|].
  destruct ls as [|b ls]; [now apply lines_no_nl|].
  change (join nl (a :: b :: ls)) with (a ++ nl ++ join nl (b :: ls)).
  rewrite lines_app_nl by exact A. f_equal. apply IH. discriminate.
Qed.

Lemma join_app (sep : string) (l1 l2 : list string) :
  l1 <> [] -> l2 <> [] ->
  join sep (l1 ++ l2) = join sep l1 ++ sep ++ join sep l2.
Proof.
  intros N1 N2. induction l1 as [|a l1 IH]; [congruence|].
  destruct l1 as [|b l1].
  - destruct l2; [congruence|reflexivity].
  - change (join sep ((a :: b :: l1) ++ l2))
      with (a ++ sep ++ join sep ((b :: l1) ++ l2)).
    rewrite IH by discriminate.
    change (join sep (a :: b :: l1)) with (a ++ sep ++ join sep (b :: l1)).
    now rewrite !append_assoc.
Qed.

Lemma budgetText_join (l : Locale) (s : State) :
  expenses s <> [] -> budgetText l s = join nl (textLines l s).
Proof.
  intros N. unfold textLines. cbv zeta.
  set (body := map _ (entries (expenses s))).
  assert (B : body <> []).
  { unfold body, entries. destruct (expenses s); [congruence|discriminate]. }
  rewrite (join_app nl _ (body ++ _)%list);
    [|discriminate|destruct body; discriminate].
  rewrite (join_app nl body); [|exact B|discriminate].
  unfold budgetText. fold body. cbn [join]. unfold nl.
  repeat (rewrite !append_assoc; cbn [append]). reflexivity.
Qed.

(** Split at its line breaks, the text export is the list of lines the
    template shows: an empty first line, the heading and its underline, the
    income, one line per entry of the expenses object, the three totals, the
    recommendation and an empty last line.  No amount, percentage or message
    brings a line break of its own, so a state with the six keys always
    gives twenty lines. *)
Theorem budgetText_lines (l : Locale) (s : State) :
  no_nl (groupSep l) = true -> no_nl (decimalSep l) = true ->
  wf (expenses s) ->
  lines (budgetText l s) = textLines l s /\
  List.length (lines (budgetText l s)) = 20%nat /\
  nth_error (lines (budgetText l s)) 7
  = Some ("Housing: $" ++ toLocaleString l (amount housing (expenses s))) /\
  nth_error (lines (budgetText l s)) 12
  = Some ("Other: $" ++ toLocaleString l (amount other (expenses s))).
Proof.
  intros G D W.
  assert (L : lines (budgetText l s) = textLines l s).
  { rewrite budgetText_join
      by (destruct (wf_inv _ W) as (h & t & f & u & e & o & ->); discriminate).
    apply lines_join.
    - unfold textLines. discriminate.
    - pose proof (no_nl_toLocaleString l) as T.
      unfold textLines. cbv zeta. apply Forall_app. split; [|apply Forall_app; split].
      + repeat constructor. cbn [append no_nl]. now rewrite T.
      + apply Forall_forall. intros a H.
        apply in_map_iff in H as ([k v] & <- & H).
        assert (K : In k expenseKeys).
        { rewrite <- W. unfold keys. apply in_map_iff. now exists (k, v). }
        rewrite !no_nl_app, T by assumption.
        simpl in K. repeat (destruct K as [<-|K]; [reflexivity|]). destruct K.
      + repeat constructor; cbn [append no_nl];
          rewrite ?no_nl_app, ?T, ?no_nl_toFixed2, ?no_nl_recommendation
            by assumption; reflexivity. }
  rewrite L. destruct s as [i x]. cbn [expenses] in *.
  destruct (wf_inv _ W) as (h & t & f & u & e & o & ->).
  repeat split.
Qed.

Lemma budgetText_lines_witness :
  no_nl (groupSep en_US) = true /\ no_nl (decimalSep en_US) = true /\
  wf (expenses initialState) /\
  nth_error (lines (budgetText en_US initialState)) 7 = Some "Housing: $1,500".
Proof.
  split; [reflexivity|]. split; [reflexivity|]. split; [reflexivity|].
  exact (proj1 (proj2 (proj2 (budgetText_lines en_US initialState
                                eq_refl eq_refl eq_refl)))).
Defined.

(** ** The state after a session *)

Lemma Category_eqb_spec (c c' : Category) :
  reflect (c = c') (Category_eqb c c').
Proof.
  unfold Category_eqb. destruct (String.eqb_spec (keyName c) (keyName c')) as [E|N].
  - left. now apply keyName_inj.
  - right. intros ->. now apply N.
Qed.

(** The last input wins, field by field: after any session the income is
    the value last typed into the income field and the amount of each
    category is the value last typed into its field; a field nobody typed
    into keeps what it had, and the export buttons change neither. *)
Theorem session_last_input_wins (evs : list Event) (w : World) (c : Category) :
  income (component (session evs w)) = lastIncome evs (income (component w)) /\
  get (keyName c) (expenses (component (session evs w)))
  = lastAmount c evs (get (keyName c) (expenses (component w))).
Proof.
  unfold session. revert w. induction evs as [|ev evs IH]; intros w.
  - split; reflexivity.
  - cbn [fold_left]. destruct (IH (handle ev w)) as [I A]. rewrite I, A.
    destruct ev as [v|c' v| |]; cbn [lastIncome lastAmount].
    + split; reflexivity.
    + cbn [handle onExpenseChange run fold_left exec component setExpenses
           income expenses].
      unfold handleExpenseChange.
      destruct (Category_eqb_spec c c') as [<-|N].
      * now rewrite get_set_same.
      * rewrite get_set_other; [split; reflexivity|].
        intros E. now apply N, keyName_inj.
    + unfold handle, clickExcel.
      now rewrite run_frame by apply downloadAsExcel_reads_only.
    + unfold handle, clickTxt.
      now rewrite run_frame by apply downloadAsTxt_reads_only.
Qed.

(** ** Whole-number budgets under an en-US host *)

(** Under an en-US host, for whole-number income and amounts the three
    figures of the summary row are the exact income, the exact sum of the
    amounts and their exact difference, each as digits grouped in threes by
    commas after the dollar sign, the difference with a minus sign when the
    expenses exceed the income. *)
Theorem summaryFigures_whole (i : Z) (x : Expenses) (zs : list Z) :
  values x = map num zs -> Forall (fun z => 0 <= z) zs -> sumZ zs < 2 ^ 53 ->
  0 <= i < 2 ^ 53 ->
  summaryFigures en_US (mkState (num i) x)
  = ["$" ++ group3 "," (digits i);
     "$" ++ group3 "," (digits (sumZ zs));
     "$" ++ (if i <? sumZ zs then "-" else "")
         ++ group3 "," (digits (Z.abs (i - sumZ zs)))].
Proof.
  intros V F B I. pose proof (sumZ_nonneg zs F) as P.
  unfold summaryFigures. cbn [income expenses].
  rewrite (savings_whole i x zs V F B I), (totalExpenses_whole x zs V F B).
  rewrite !toLocaleString_whole, !grouped_en_US by lia.
  replace (Z.abs i) with i by lia.
  replace (Z.abs (sumZ zs)) with (sumZ zs) by lia.
  replace (i <? 0) with false by (symmetry; apply Z.ltb_ge; lia).
  replace (sumZ zs <? 0) with false by (symmetry; apply Z.ltb_ge; lia).
  replace (i - sumZ zs <? 0) with (i <? sumZ zs)
    by (destruct (Z.ltb_spec i (sumZ zs)); destruct (Z.ltb_spec (i - sumZ zs) 0);
        reflexivity || lia).
  reflexivity.
Qed.

Lemma summaryFigures_whole_witness :
  values (expenses initialState) = map num [1500; 400; 600; 300; 200; 300] /\
  summaryFigures en_US (mkState (num 3000) (expenses initialState))
  = ["$3,000"; "$3,300"; "$-300"].
Proof.
  split; [reflexivity|].
  refine (summaryFigures_whole 3000 (expenses initialState)
            [1500; 400; 600; 300; 200; 300] eq_refl _ _ _).
  - repeat constructor; lia.
  - simpl; lia.
  - lia.
Defined.

(** Under an en-US host, the text export of a whole-number budget is, line
    by line, the template with the exact income, amounts, total and
    difference written as digits grouped in threes by commas, no fraction,
    and a minus sign before a negative difference.  Taking the commas out
    of such a numeral gives the digits back, and a numeral of [n] digits
    holds [(n - 1) / 3] commas. *)
Theorem budgetText_whole_en_US (i a1 a2 a3 a4 a5 a6 : Z) :
  let s := mkState (num i)
             (mkExpenses (num a1) (num a2) (num a3) (num a4) (num a5) (num a6)) in
  let total := a1 + a2 + a3 + a4 + a5 + a6 in
  let g := fun z => group3 "," (digits z) in
  0 <= i < 2 ^ 53 ->
  0 <= a1 -> 0 <= a2 -> 0 <= a3 -> 0 <= a4 -> 0 <= a5 -> 0 <= a6 ->
  total < 2 ^ 53 ->
  budgetText en_US s
  = join nl
      [""; "BUDGET SUMMARY"; "=============="; "";
       "Income: $" ++ g i; ""; "EXPENSES:";
       "Housing: $" ++ g a1; "Transportation: $" ++ g a2; "Food: $" ++ g a3;
       "Utilities: $" ++ g a4; "Entertainment: $" ++ g a5; "Other: $" ++ g a6;
       "";
       "Total Expenses: $" ++ g total;
       "Savings: $" ++ (if i <? total then "-" else "") ++ g (Z.abs (i - total));
       "Savings Percentage: " ++ toFixed2 (savingsPercentage s) ++ "%"; "";
       "Recommendation: " ++ recommendation s; ""] /\
  (forall z, without ","%char (g z) = digits z /\
             String.length (g z)
             = (String.length (digits z)
                + (String.length (digits z) - 1) / 3)%nat).
Proof.
  intros s total g I H1 H2 H3 H4 H5 H6 B. split.
  - assert (W : forall z, 0 <= z < 2 ^ 53 ->
                  toLocaleString en_US (num z) = g z).
    { intros z Hz. rewrite toLocaleString_whole, grouped_en_US by lia.
      replace (z <? 0) with false by (symmetry; apply Z.ltb_ge; lia).
      replace (Z.abs z) with z by lia. reflexivity. }
    assert (F : Forall (fun z => 0 <= z) [a1; a2; a3; a4; a5; a6])
      by (repeat constructor; assumption).
    assert (S : sumZ [a1; a2; a3; a4; a5; a6] = total) by (simpl; lia).
    rewrite budgetText_join by discriminate.
    unfold textLines. cbv zeta. subst s. cbn [income expenses entries map app].
    rewrite (savings_whole i
               (mkExpenses (num a1) (num a2) (num a3) (num a4) (num a5) (num a6))
               [a1; a2; a3; a4; a5; a6] eq_refl F)
      by (rewrite ?S; lia).
    rewrite (totalExpenses_whole
               (mkExpenses (num a1) (num a2) (num a3) (num a4) (num a5) (num a6))
               [a1; a2; a3; a4; a5; a6] eq_refl F)
      by (rewrite ?S; lia).
    unfold mkExpenses at 1. cbn [map app].
    rewrite S, !W by lia.
    rewrite toLocaleString_whole, grouped_en_US by lia.
    replace (i - total <? 0) with (i <? total)
      by (destruct (Z.ltb_spec i total); destruct (Z.ltb_spec (i - total) 0);
          reflexivity || lia).
    reflexivity.
  - intros z. subst g. cbv beta. split.
    + apply without_group3; [reflexivity|apply digits_all_digits].
    + rewrite length_group3. cbn [String.length]. lia.
Qed.

Lemma budgetText_whole_en_US_witness :
  0 <= 5000 < 2 ^ 53 /\
  budgetText en_US initialState
  = join nl
      [""; "BUDGET SUMMARY"; "=============="; "";
       "Income: $5,000"; ""; "EXPENSES:";
       "Housing: $1,500"; "Transportation: $400"; "Food: $600";
       "Utilities: $300"; "Entertainment: $200"; "Other: $300";
       "";
       "Total Expenses: $3,300";
       "Savings: $1,700";
       "Savings Percentage: 34.00%"; "";
       "Recommendation: " ++ msg_great; ""].
Proof.
  split; [lia|].
  refine (proj1 (budgetText_whole_en_US 5000 1500 400 600 300 200 300
                   _ _ _ _ _ _ _ _)); lia.
Defined.
